(** * indoortrackingbackend: the beacon relay of [lib/dataFetcher.js]

  A shallow embedding of [extractBeaconData], [formatUptime],
  [getCurrentDateTime], [sendToMqtt], [sendToMongoDB] and
  [fetchDataAndSend], and the properties of the relay stated over it.

  - JavaScript values are the inductive [value]; an object is the list of
    its own enumerable properties in the order [Object.keys] lists them.
  - Numbers are the integer-valued doubles, [NaN] and the infinities.  On
    the integers a double holds exactly (up to 2^53 - 1) the arithmetic is
    that of [Z]; beyond them it is binary64 arithmetic, through the
    specification of IEEE 754 of the Standard Library.  Fractional
    readings are outside the embedding.
  - Text is [string]; the engine's case conversion and its reading of a
    numeric literal are parameters.
  - The network, the broker, the clock and the socket server are a [world]
    that answers each call; an invocation is a function from the world and
    the relay's state to the list of observable events it produces. *)

From Stdlib Require Import ZArith List String Ascii Bool Lia DecimalString.
From Stdlib Require Import SpecFloat.
Import ListNotations.

Set Warnings "-register-all".

Local Open Scope list_scope.
Local Open Scope string_scope.

(** ** JavaScript values *)

Module JS.

(** A number: [Int z] is the double nearest to the integer [z], which is
    [z] itself up to [maxSafe]. *)
Inductive num : Type :=
| NaN
| Int (z : Z)
| Infinity (negative : bool).

Inductive value : Type :=
| VUndefined
| VNull
| VBool (b : bool)
| VNum (n : num)
| VStr (s : string)
| VArr (elems : list value)
| VObj (props : list (string * value)).

(** An object literal or a parsed JSON object: own properties, first
    binding of a name wins. *)
Definition obj : Type := list (string * value).

Inductive exn : Type :=
| TypeError
| Failure (reason : string).

Inductive result (A : Type) : Type :=
| Ok (a : A)
| Throw (e : exn).
Arguments Ok {A} a.
Arguments Throw {A} e.

Definition rbind {A B} (r : result A) (k : A -> result B) : result B :=
  match r with
  | Ok a => k a
  | Throw e => Throw e
  end.

Fixpoint assoc (k : string) (l : obj) : option value :=
  match l with
  | [] => None
  | (k', v) :: l' => if String.eqb k k' then Some v else assoc k l'
  end.

(** [String(n)] for an integer-valued number. *)
Definition string_of_Z (z : Z) : string :=
  NilZero.string_of_int (Z.to_int z).

(** [Number.MAX_SAFE_INTEGER], 2^53 - 1. *)
Definition maxSafe : Z := 9007199254740991.

Definition isSafe (z : Z) : bool := (Z.abs z <=? maxSafe)%Z.

(** The double nearest to an integer (ties to even). *)
Definition binary64 (z : Z) : spec_float := binary_normalize 53 1024 z 0 false.

(** [Math.floor] of a double. *)
Definition floorOf (f : spec_float) : num :=
  match f with
  | S754_zero _ => Int 0
  | S754_infinity s => Infinity s
  | S754_nan => NaN
  | S754_finite s m e => Int (Z.shiftl (if s then Zneg m else Zpos m) e)
  end.

Definition digitsOf (x : Z) : Z := Z.of_nat (String.length (string_of_Z x)).

(** Whether the decimal [x] reads back as the double [m * 2^e]: [x] lies
    within half a gap of it, the ends included when [m] is even. *)
Definition roundsTo (m : positive) (e : Z) (x : Z) : bool :=
  let v := (Zpos m * 2 ^ e)%Z in
  let up := (2 ^ e)%Z in
  let down := (if Pos.eqb m 4503599627370496 then 2 ^ (e - 1) else 2 ^ e)%Z in
  if Z.even (Zpos m)
  then ((2 * v - down <=? 2 * x) && (2 * x <=? 2 * v + up))%Z
  else ((2 * v - down <? 2 * x) && (2 * x <? 2 * v + up))%Z.

(** The decimal with the fewest significant digits that reads back as the
    integer-valued double [m * 2^e], the nearest one when there are two
    (Number::toString): tried with [k], [k + 1], ... significant digits. *)
Fixpoint shortestFrom (fuel : nat) (k : Z) (m : positive) (e : Z) : Z :=
  let v := (Zpos m * 2 ^ e)%Z in
  match fuel with
  | O => v
  | S fuel' =>
      if (digitsOf v <=? k)%Z then v
      else
        let step := (10 ^ (digitsOf v - k))%Z in
        let x0 := (v / step * step)%Z in
        let x1 := (x0 + step)%Z in
        match roundsTo m e x0, roundsTo m e x1 with
        | true, true =>
            if (v - x0 <? x1 - v)%Z then x0
            else if (x1 - v <? v - x0)%Z then x1
            else if Z.even (x0 / step) then x0 else x1
        | true, false => x0
        | false, true => x1
        | false, false => shortestFrom fuel' (k + 1)%Z m e
        end
  end.

Fixpoint stripZeros (fuel : nat) (x : Z) : Z :=
  match fuel with
  | O => x
  | S fuel' => if (x mod 10 =? 0)%Z then stripZeros fuel' (x / 10)%Z else x
  end.

(** Up to 21 digits in full, from there on in exponent form. *)
Definition printDigits (x : Z) : string :=
  let n := digitsOf x in
  if (n <=? 21)%Z then string_of_Z x
  else
    match string_of_Z (stripZeros 400 x) with
    | EmptyString => EmptyString
    | String d EmptyString => String d ("e+" ++ string_of_Z (n - 1))
    | String d rest => String d ("." ++ rest ++ "e+" ++ string_of_Z (n - 1))
    end.

(** [String(x)] for an integer-valued double. *)
Definition numberToString (f : spec_float) : string :=
  match f with
  | S754_zero _ => "0"
  | S754_infinity false => "Infinity"
  | S754_infinity true => "-Infinity"
  | S754_nan => "NaN"
  | S754_finite s m e =>
      (if s then "-" else "") ++ printDigits (shortestFrom 17 1 m e)
  end.

Definition string_of_num (n : num) : string :=
  match n with
  | NaN => "NaN"
  | Int z => if isSafe z then string_of_Z z else numberToString (binary64 z)
  | Infinity false => "Infinity"
  | Infinity true => "-Infinity"
  end.

Definition indexNames (n : nat) : list string :=
  map (fun i => string_of_Z (Z.of_nat i)) (seq 0 n).

Definition chars (s : string) : list value :=
  map (fun c => VStr (String c EmptyString)) (list_ascii_of_string s).

(** Own enumerable properties: those of an object, the indices of an
    array, the indices of a string; other primitives have none. *)
Definition ownProps (v : value) : obj :=
  match v with
  | VObj p => p
  | VArr l => combine (indexNames (List.length l)) l
  | VStr s => combine (indexNames (String.length s)) (chars s)
  | _ => []
  end.

Definition nullish (v : value) : bool :=
  match v with
  | VUndefined | VNull => true
  | _ => false
  end.

(** [o[k]] on a value that is not null or undefined, for a name that is
    not inherited (none of the names the relay reads is). *)
Definition field (v : value) (k : string) : value :=
  match assoc k (ownProps v) with
  | Some x => x
  | None => VUndefined
  end.

(** [v.k] / [v[k]]: a TypeError on null and undefined. *)
Definition getProp (v : value) (k : string) : result value :=
  if nullish v then Throw TypeError else Ok (field v k).

(** [Object.keys(v)]. *)
Definition Object_keys (v : value) : result (list string) :=
  if nullish v then Throw TypeError else Ok (map fst (ownProps v)).

(** [k in v]: a TypeError unless [v] is an object. *)
Definition hasProperty (k : string) (v : value) : result bool :=
  match v with
  | VObj _ | VArr _ =>
      Ok (match assoc k (ownProps v) with Some _ => true | None => false end)
  | _ => Throw TypeError
  end.

Definition isArray (v : value) : bool :=
  match v with
  | VArr _ => true
  | _ => false
  end.

(** ToBoolean. *)
Definition truthy (v : value) : bool :=
  match v with
  | VUndefined | VNull => false
  | VBool b => b
  | VNum NaN => false
  | VNum (Int z) => negb (Z.eqb z 0)
  | VNum (Infinity _) => true
  | VStr s => negb (String.eqb s "")
  | VArr _ | VObj _ => true
  end.

(** [a || b]. *)
Definition or_else (a b : value) : value :=
  if truthy a then a else b.

Fixpoint join (sep : string) (l : list string) : string :=
  match l with
  | [] => ""
  | [s] => s
  | s :: l' => s ++ sep ++ join sep l'
  end.

(** ToString, as a template literal applies it. *)
Fixpoint ToString (v : value) : string :=
  match v with
  | VUndefined => "undefined"
  | VNull => "null"
  | VBool true => "true"
  | VBool false => "false"
  | VNum n => string_of_num n
  | VStr s => s
  | VArr l =>
      join ","
        ((fix each (l : list value) : list string :=
            match l with
            | [] => []
            | x :: l' => (if nullish x then "" else ToString x) :: each l'
            end) l)
  | VObj _ => "[object Object]"
  end.

Definition upper (c : ascii) : ascii :=
  let n := nat_of_ascii c in
  if (97 <=? n)%nat && (n <=? 122)%nat then ascii_of_nat (n - 32) else c.

(** [s.toUpperCase()] on ASCII text. *)
Fixpoint asciiUpperCase (s : string) : string :=
  match s with
  | EmptyString => EmptyString
  | String c s' => String (upper c) (asciiUpperCase s')
  end.

(** [s.slice(0, -1)]. *)
Definition slice_0_m1 (s : string) : string :=
  substring 0 (String.length s - 1) s.

(** [s.replace(pat, by)] for a text pattern: the first occurrence only. *)
Definition replace (pat by_ s : string) : string :=
  match index 0 pat s with
  | Some i =>
      substring 0 i s ++ by_
        ++ substring (i + String.length pat)
             (String.length s - (i + String.length pat)) s
  | None => s
  end.

(** [s.substr(0, n)]. *)
Definition substr_0 (n : nat) (s : string) : string := substring 0 n s.

(** [Math.floor(n / d)] for a positive integer [d] that a double holds
    exactly.  On the safe integers the rounded quotient has the floor of
    the exact one (the quotient of a non-multiple is further from the next
    integer than half a gap of the doubles there); beyond them the quotient
    is the binary64 one. *)
Definition floor_div (n : num) (d : Z) : num :=
  match n with
  | NaN => NaN
  | Int z =>
      if isSafe z then Int (z / d)
      else floorOf (SFdiv 53 1024 (binary64 z) (binary64 d))
  | Infinity s => Infinity s
  end.

(** [n % d]: the remainder of the double [n], exact, with the sign of the
    dividend. *)
Definition remainder (n : num) (d : Z) : num :=
  match n with
  | NaN => NaN
  | Int z =>
      if isSafe z then Int (Z.rem z d)
      else
        match floorOf (binary64 z) with
        | Int z' => Int (Z.rem z' d)
        | _ => NaN
        end
  | Infinity _ => NaN
  end.

(** ToNumber, as the arithmetic operators apply it.  [StringToNumber] is
    the engine's reading of a numeric literal, which the repository does
    not define. *)
Definition ToNumber (StringToNumber : string -> num) (v : value) : num :=
  match v with
  | VUndefined => NaN
  | VNull => Int 0
  | VBool true => Int 1
  | VBool false => Int 0
  | VNum n => n
  | VStr s => StringToNumber s
  | VArr _ | VObj _ => StringToNumber (ToString v)
  end.

End JS.
Import JS.

(** ** The world around the relay *)

Module World.

(** [process.env], as far as the relay reads it. *)
Record process_env : Type := {
  mqttserver : value;
  clientId : value;
  username : value;
  password : value
}.

(** How a promise (or a call) ends. *)
Inductive settled (A : Type) : Type :=
| Fulfilled (a : A)
| Rejected (e : exn)
| Unsettled.
Arguments Fulfilled {A} a.
Arguments Rejected {A} e.
Arguments Unsettled {A}.

(** What the client of [mqtt.connect] reports until the promise of
    [sendToMqtt] settles: ['connect'] and, once [end()] was called,
    ['close'] ([Accepts]); ['error'] first ([Refuses]); ['close'] before any
    ['connect'], as when the connection attempt times out ([ClosesEarly]);
    or nothing ever ([Silent], the limit case of a client without
    time-out).  In all but the first the client is not ended: it stays
    open and may connect later, see [openClients]. *)
Inductive broker : Type :=
| Accepts
| Refuses (e : exn)
| Silent
| ClosesEarly.

Record world : Type := {
  env : process_env;
  (** the response [axios.get] of the position endpoint settles to *)
  getPosition : settled value;
  mqttBroker : broker;
  (** what the k-th [axios.post] of the process settles to *)
  addTemp : nat -> settled value;
  (** [(new Date(now - offset)).toISOString()] at the k-th reading of the
      clock *)
  isoTime : nat -> string
}.

(** Observable actions, in program order. *)
Inductive event : Type :=
| AxiosGet (url : string)
| AxiosPost (url : string) (body : value)
| AxiosPostFulfilled
| ConsoleError (text : string) (detail : option exn)
| ConsoleLog (text : string) (v : value)
| MqttConnect (url options : value)
| MqttPublish (topic : string) (message : value)
| MqttEnd
| MqttClose
| IoOn (eventName : string)
| IoEmit (eventName : string) (payload : value).

(** A listener the relay registers: [(socket) => io.emit("beaconData",
    extractedData)], with the batch it closes over. *)
Inductive listener : Type :=
| EmitBeaconData (extractedData : value).

(** What survives an invocation: the clock readings and POSTs counted so
    far, the listeners the [io] object holds, and the MQTT clients that
    were not ended, each with the batch its ['connect'] handler closes
    over. *)
Record state : Type := {
  clockReads : nat;
  postsSent : nat;
  listeners : list listener;
  openClients : list (list obj)
}.

Record run (A : Type) : Type := Run {
  trace : list event;
  after : state;
  outcome : settled A
}.
Arguments Run {A} trace after outcome.
Arguments trace {A} r.
Arguments after {A} r.
Arguments outcome {A} r.

Definition M (A : Type) : Type := world -> state -> run A.

(** The events [t] happened, then [r]. *)
Definition prefix {A} (t : list event) (r : run A) : run A :=
  match r with
  | Run t' s o => Run (t ++ t')%list s o
  end.

Definition ret {A} (a : A) : M A :=
  fun _ s => Run [] s (Fulfilled a).

Definition bind {A B} (m : M A) (k : A -> M B) : M B :=
  fun w s =>
    match m w s with
    | Run t s1 (Fulfilled a) => prefix t (k a w s1)
    | Run t s1 (Rejected e) => Run t s1 (Rejected e)
    | Run t s1 Unsettled => Run t s1 Unsettled
    end.

Definition emit (e : event) : M unit :=
  fun _ s => {| trace := [e]; after := s; outcome := Fulfilled tt |}.

(** [await p] / a call that may throw. *)
Definition await {A} (p : world -> state -> settled A) : M A :=
  fun w s => {| trace := []; after := s; outcome := p w s |}.

Definition lift {A} (r : result A) : M A :=
  await (fun _ _ => match r with Ok a => Fulfilled a | Throw e => Rejected e end).

Definition update (f : state -> state) : M unit :=
  fun _ s => {| trace := []; after := f s; outcome := Fulfilled tt |}.

(** [try { m } catch (error) { h error }]. *)
Definition try_catch {A} (m : M A) (h : exn -> M A) : M A :=
  fun w s =>
    match m w s with
    | Run t s1 (Rejected e) => prefix t (h e w s1)
    | r => r
    end.

(** A new subscriber connects: the server calls every ['connection']
    listener, in the order of registration. *)
Definition connection (s : state) : list event :=
  map (fun l => match l with EmitBeaconData d => IoEmit "beaconData" d end)
    (listeners s).

End World.
Import World.

Declare Scope relay_scope.
Delimit Scope relay_scope with relay.
Notation "x <- m ;; k" := (bind m (fun x => k))
  (at level 61, m at next level, right associativity) : relay_scope.
Notation "m ;; k" := (bind m (fun _ => k))
  (at level 61, right associativity) : relay_scope.
Notation "'let?' x := r 'in' k" := (rbind r (fun x => k))
  (at level 61, x name, r at next level, right associativity).

(** ** lib/dataFetcher.js *)

Module DataFetcher.

(** [formatUptime], on the number its argument coerces to. *)
Definition formatUptime (uptimeInSeconds : num) : string :=
  let days := floor_div uptimeInSeconds (60 * 60 * 24) in
  let hours := floor_div (remainder uptimeInSeconds (60 * 60 * 24)) (60 * 60) in
  let minutes := floor_div (remainder uptimeInSeconds (60 * 60)) 60 in
  let seconds := remainder uptimeInSeconds 60 in
  string_of_num days ++ " Tage, " ++ string_of_num hours ++ " Stunden, "
    ++ string_of_num minutes ++ " Minuten, " ++ string_of_num seconds
    ++ " Sekunden".

(** [getCurrentDateTime]: one reading of the clock. *)
Definition getCurrentDateTime : M string :=
  fun w s =>
    let localISOTime := slice_0_m1 (isoTime w (clockReads s)) in
    {| trace := [];
       after := {| clockReads := S (clockReads s); postsSent := postsSent s;
                   listeners := listeners s;
                   openClients := openClients s |};
       outcome := Fulfilled (substr_0 19 (replace "T" " " localISOTime)) |}.

(** [a.b.c] *)
Definition path2 (v : value) (a b : string) : result value :=
  let? x := getProp v a in getProp x b.

Section PerEntry.

(** The engine's reading of a numeric literal and its
    [String.prototype.toUpperCase]. *)
Variable StringToNumber : string -> num.
Variable toUpperCase : string -> string.

Definition extractBeaconData (beacon : value) : result obj :=
  let? keys := Object_keys beacon in
  let beaconKey := hd_error keys in
  let? beaconData :=
    getProp beacon (match beaconKey with Some k => k | None => "undefined" end) in
  let? upperKey :=
    match beaconKey with
    | Some k => Ok (VStr (toUpperCase k))
    | None => Throw TypeError
    end in
  let? gateway := path2 beaconData "nearestGatewayData" "device" in
  let? latitude := path2 beaconData "location" "latitude" in
  let? longitude := path2 beaconData "location" "longitude" in
  let? sapLocation := path2 beaconData "location" "sapLocation" in
  let? tempCondition_Low := path2 beaconData "location" "tempCondition_Low" in
  let? tempCondition_High := path2 beaconData "location" "tempCondition_High" in
  let data :=
    [ ("beacon", upperKey);
      ("gateway", gateway);
      ("latitude", latitude);
      ("longitude", longitude);
      ("sapLocation", sapLocation);
      ("tempCondition_Low", tempCondition_Low);
      ("tempCondition_High", tempCondition_High) ] in
  let? has := hasProperty "dynamb" beaconData in
  if has then
    let? temperature := path2 beaconData "dynamb" "temperature" in
    let? uptime := path2 beaconData "dynamb" "uptime" in
    Ok (data ++ [ ("temperature", temperature);
                  ("uptime", VStr (formatUptime (ToNumber StringToNumber uptime))) ])%list
  else Ok data.

(** [beacons.map(beacon => extractBeaconData(beacon))] *)
Fixpoint extractAll (beacons : list value) : result (list obj) :=
  match beacons with
  | [] => Ok []
  | beacon :: rest =>
      let? data := extractBeaconData beacon in
      let? others := extractAll rest in
      Ok (data :: others)
  end.

End PerEntry.

(** [item.name] for an item of [extractedData]. *)
Definition prop (item : obj) (name : string) : value := field (VObj item) name.

(** The body of the [forEach] in [sendToMqtt].  The message is published as
    the JSON text of [beaconData]; the object stands for it here. *)
Definition publishItem (item : obj) : M unit :=
  (let deviceTopic := "beacon/" ++ ToString (prop item "gatewayMac") in
   currentDateTime <- getCurrentDateTime ;;
   let beaconData :=
     VObj [ ("beacon", prop item "beacon");
            ("gateway", prop item "gateway");
            ("latitude", prop item "latitude");
            ("longitude", prop item "longitude");
            ("storageLocation", prop item "sapLocation");
            ("tempCondition_Low", prop item "tempCondition_Low");
            ("tempCondition_High", prop item "tempCondition_High");
            ("currentDateTime", VStr currentDateTime);
            ("temperature", or_else (prop item "temperature") (VNum (Int 0))) ] in
   emit (MqttPublish deviceTopic beaconData))%relay.

Fixpoint forEach {A} (f : A -> M unit) (l : list A) : M unit :=
  match l with
  | [] => ret tt
  | x :: l' => (f x ;; forEach f l')%relay
  end.

(** The ['connect'] handler of [sendToMqtt]: publish every item, then
    [end()]. *)
Definition onConnect (extractedData : list obj) : M unit :=
  (forEach publishItem extractedData ;;
   emit MqttEnd)%relay.

(** The client stays open, with its handlers. *)
Definition leaveOpen (extractedData : list obj) : M unit :=
  update (fun s => {| clockReads := clockReads s; postsSent := postsSent s;
                      listeners := listeners s;
                      openClients := (openClients s ++ [extractedData])%list |}).

(** The promise is rejected by the first ['error'] and resolved by the
    first ['close'], whichever the client reports first. *)
Definition sendToMqtt (extractedData : list obj) : M unit :=
  fun w =>
    (let mqttBrokerUrl := mqttserver (env w) in
     let mqttOptions :=
       VObj [ ("clientId", clientId (env w));
              ("username", username (env w));
              ("password", password (env w)) ] in
     emit (MqttConnect mqttBrokerUrl mqttOptions) ;;
     match mqttBroker w with
     | Accepts =>
         onConnect extractedData ;;
         emit MqttClose
     | Refuses e =>
         leaveOpen extractedData ;;
         await (fun _ _ => Rejected e)
     | Silent =>
         leaveOpen extractedData ;;
         await (fun _ _ => Unsettled)
     | ClosesEarly =>
         leaveOpen extractedData ;;
         emit MqttClose
     end)%relay w.

(** An open client connects later: its ['connect'] handler runs on the
    batch it closes over, and [end()] closes it. *)
Definition clientConnects : M unit :=
  fun w s =>
    match openClients s with
    | [] => ret tt w s
    | extractedData :: others =>
        (update (fun s => {| clockReads := clockReads s;
                             postsSent := postsSent s;
                             listeners := listeners s;
                             openClients := others |}) ;;
         onConnect extractedData ;;
         emit MqttClose)%relay w s
    end.

(** [await axios.post(url, body)] *)
Definition post (url : string) (body : value) : M value :=
  (emit (AxiosPost url body) ;;
   response <- await (fun w s => addTemp w (postsSent s)) ;;
   update (fun s => {| clockReads := clockReads s; postsSent := S (postsSent s);
                       listeners := listeners s;
                       openClients := openClients s |}) ;;
   emit AxiosPostFulfilled ;;
   ret response)%relay.

(** One turn of the loop of [sendToMongoDB]. *)
Definition appendItem (item : obj) : M unit :=
  (timestamp <- getCurrentDateTime ;;
   let dataToMongoDB :=
     VObj [ ("beacon", prop item "beacon");
            ("gateway", prop item "gateway");
            ("latitude", prop item "latitude");
            ("longitude", prop item "longitude");
            ("tempConditionLow", prop item "tempCondition_Low");
            ("tempConditionHigh", prop item "tempCondition_High");
            ("sapLocation", prop item "sapLocation");
            ("events",
              VArr [ VObj [ ("timestamp", VStr timestamp);
                            ("temperature",
                              or_else (prop item "temperature") (VNum (Int 0))) ] ]) ] in
   post "http://localhost:3002/api/temperature/addTemp" dataToMongoDB ;;
   ret tt)%relay.

Definition sendToMongoDB (extractedData : list obj) (originalBeacons : list value)
  : M unit :=
  forEach appendItem extractedData.

(** [io.on('connection', (socket) => { io.emit("beaconData", extractedData) })] *)
Definition ioOnConnection (extractedData : value) : M unit :=
  (emit (IoOn "connection") ;;
   update (fun s => {| clockReads := clockReads s; postsSent := postsSent s;
                       listeners := (listeners s ++ [EmitBeaconData extractedData])%list;
                       openClients := openClients s |}))%relay.

Definition elements (v : value) : list value :=
  match v with
  | VArr l => l
  | _ => []
  end.

Section Relay.

Variable StringToNumber : string -> num.
Variable toUpperCase : string -> string.

Definition fetchDataAndSend : M unit :=
  try_catch
    (emit (AxiosGet "http://localhost:3002/api/position/getPosition") ;;
     response <- await (fun w _ => getPosition w) ;;
     responseData <- lift (getProp response "data") ;;
     data <- lift (getProp responseData "data") ;;
     noBeacons <-
       (if negb (truthy data) then ret true
        else beacons <- lift (getProp data "beacons") ;;
             ret (negb (isArray beacons))) ;;
     if (noBeacons : bool) then
       emit (ConsoleError "No beacons found in the response." None)
     else
       beacons <- lift (getProp data "beacons") ;;
       let originalBeacons := elements beacons in
       extractedData <- lift (extractAll StringToNumber toUpperCase originalBeacons) ;;
       emit (ConsoleLog "extractedData:" (VArr (map VObj extractedData))) ;;
       sendToMqtt extractedData ;;
       sendToMongoDB extractedData originalBeacons ;;
       ioOnConnection (VArr (map VObj extractedData)))%relay
    (fun error =>
       emit (ConsoleError "Error during fetching or sending data:" (Some error))).

End Relay.

End DataFetcher.
Import DataFetcher.

(** ** What the specification says, in its own words *)

Module Spec.

(** The decomposition of an uptime: whole days, hours of the remaining day,
    minutes of the remaining hour, seconds of the remaining minute. *)
Definition uptime_text (s : Z) : string :=
  let D := (s / 86400)%Z in
  let H := ((s mod 86400) / 3600)%Z in
  let M := ((s mod 3600) / 60)%Z in
  let S := (s mod 60)%Z in
  string_of_Z D ++ " Tage, " ++ string_of_Z H ++ " Stunden, "
    ++ string_of_Z M ++ " Minuten, " ++ string_of_Z S ++ " Sekunden".

End Spec.

(** ** Reading a run *)

Module Observe.

(** The value at [data.beacons] of a response body, when it is an array. *)
Definition beaconsAt (body : value) : option (list value) :=
  match field (field body "data") "beacons" with
  | VArr l => Some l
  | _ => None
  end.

Definition isObject (v : option value) : bool :=
  match v with
  | Some (VObj _) => true
  | _ => false
  end.

(** An entry of the shape the position source documents: one key, bound to
    an object with the [nearestGatewayData] and [location] objects and,
    when it has a [dynamb], an object there too. *)
Definition wellFormedEntry (entry : value) : bool :=
  match entry with
  | VObj [(_, VObj p)] =>
      isObject (assoc "nearestGatewayData" p)
      && isObject (assoc "location" p)
      && match assoc "dynamb" p with
         | None => true
         | Some d => isObject (Some d)
         end
  | _ => false
  end.

Definition entryKey (entry : value) : string :=
  match entry with
  | VObj ((k, _) :: _) => k
  | _ => ""
  end.


Definition isMqtt (e : event) : bool :=
  match e with
  | MqttConnect _ _ | MqttPublish _ _ | MqttEnd | MqttClose => true
  | _ => false
  end.

Definition isConnect (e : event) : bool :=
  match e with
  | MqttConnect _ _ => true
  | _ => false
  end.

Definition isPublish (e : event) : bool :=
  match e with
  | MqttPublish _ _ => true
  | _ => false
  end.

Definition isPost (e : event) : bool :=
  match e with
  | AxiosPost _ _ => true
  | _ => false
  end.

Definition isAppend (e : event) : bool :=
  match e with
  | AxiosPost _ _ | AxiosPostFulfilled => true
  | _ => false
  end.

Definition isSubscriber (e : event) : bool :=
  match e with
  | IoOn _ | IoEmit _ _ => true
  | _ => false
  end.

Definition isEmit (e : event) : bool :=
  match e with
  | IoEmit _ _ => true
  | _ => false
  end.

(** An action on one of the three sinks. *)
Definition isSink (e : event) : bool :=
  isMqtt e || isAppend e || isSubscriber e.

Definition addTempUrl : string := "http://localhost:3002/api/temperature/addTemp".

(** Appends that were issued and answered, one after the other. *)
Definition answered (bodies : list value) : list event :=
  flat_map (fun b => [AxiosPost addTempUrl b; AxiosPostFulfilled]) bodies.

(** The single-element event list of an append. *)
Definition eventList (timestamp : string) (temperature : value) : value :=
  VArr [ VObj [ ("timestamp", VStr timestamp); ("temperature", temperature) ] ].

(** The local time text [getCurrentDateTime] makes of an ISO text. *)
Definition formatted (iso : string) : string :=
  substr_0 19 (replace "T" " " (slice_0_m1 iso)).

Definition getPositionUrl : string := "http://localhost:3002/api/position/getPosition".

(** The line the top-level [catch] writes. *)
Definition caughtLine (e : exn) : event :=
  ConsoleError "Error during fetching or sending data:" (Some e).

(** The call of [mqtt.connect] in a world. *)
Definition connectCall (w : world) : event :=
  MqttConnect (mqttserver (env w))
    (VObj [ ("clientId", clientId (env w));
            ("username", username (env w));
            ("password", password (env w)) ]).

Definition batchLine (extractedData : list obj) : event :=
  ConsoleLog "extractedData:" (VArr (map VObj extractedData)).

(** The statements of [fetchDataAndSend] from the [console.log] on. *)
Definition fanOut (extractedData : list obj) (originalBeacons : list value) : M unit :=
  (emit (ConsoleLog "extractedData:" (VArr (map VObj extractedData))) ;;
   sendToMqtt extractedData ;;
   sendToMongoDB extractedData originalBeacons ;;
   ioOnConnection (VArr (map VObj extractedData)))%relay.

(** The [try]/[catch] of [fetchDataAndSend] around a run that followed the
    GET. *)
Definition guarded (r : run unit) : run unit :=
  match r with
  | Run t s1 (Rejected e) =>
      Run (AxiosGet getPositionUrl :: t ++ [caughtLine e])%list s1 (Fulfilled tt)
  | Run t s1 o => Run (AxiosGet getPositionUrl :: t) s1 o
  end.

(** The MQTT step ran to its end for [n] records: connect, [n] publishes,
    [end()], close. *)
Definition mqttComplete (w : world) (n : nat) (mqtt : list event) : Prop :=
  exists pubs,
    mqtt = (connectCall w :: pubs ++ [MqttEnd; MqttClose])%list
    /\ Forall (fun e => isPublish e = true) pubs
    /\ List.length pubs = n.



End Observe.
Import Observe.

(** ** Sample data *)

Module Sample.

Definition location : value :=
  VObj [ ("latitude", VNum (Int 47)); ("longitude", VNum (Int 8));
         ("sapLocation", VStr "A1"); ("tempCondition_Low", VNum (Int 2));
         ("tempCondition_High", VNum (Int 8)) ].

Definition withTelemetry : value :=
  VObj [ ("ac233fa1",
          VObj [ ("nearestGatewayData", VObj [ ("device", VStr "gw1") ]);
                 ("location", location);
                 ("dynamb", VObj [ ("temperature", VNum (Int 21));
                                   ("uptime", VNum (Int 90061)) ]) ]) ].

Definition withoutTelemetry : value :=
  VObj [ ("bb07", VObj [ ("nearestGatewayData", VObj [ ("device", VStr "gw2") ]);
                         ("location", location) ]) ].



Definition responseOf (body : value) : value :=
  VObj [ ("status", VNum (Int 200)); ("data", body) ].

Definition bodyOf (beacons : list value) : value :=
  VObj [ ("data", VObj [ ("beacons", VArr beacons) ]) ].

Definition environment : process_env :=
  {| mqttserver := VStr "mqtt://broker"; clientId := VStr "relay";
     username := VStr "user"; password := VStr "secret" |}.

Definition worldOf (body : value) (b : broker) : world :=
  {| env := environment;
     getPosition := Fulfilled (responseOf body);
     mqttBroker := b;
     addTemp := fun _ => Fulfilled (VObj [ ("status", VNum (Int 200)) ]);
     isoTime := fun _ => "2023-05-01T10:11:12.345Z" |}.

Definition fresh : state :=
  {| clockReads := 0; postsSent := 0; listeners := [];
     openClients := [] |}.

(** The record of [withoutTelemetry]. *)
Definition recordWithoutTelemetry : obj :=
  [ ("beacon", VStr "BB07"); ("gateway", VStr "gw2");
    ("latitude", VNum (Int 47)); ("longitude", VNum (Int 8));
    ("sapLocation", VStr "A1"); ("tempCondition_Low", VNum (Int 2));
    ("tempCondition_High", VNum (Int 8)) ].

(** The record of [withTelemetry]. *)
Definition recordWithTelemetry : obj :=
  [ ("beacon", VStr "AC233FA1"); ("gateway", VStr "gw1");
    ("latitude", VNum (Int 47)); ("longitude", VNum (Int 8));
    ("sapLocation", VStr "A1"); ("tempCondition_Low", VNum (Int 2));
    ("tempCondition_High", VNum (Int 8)); ("temperature", VNum (Int 21));
    ("uptime", VStr "1 Tage, 1 Stunden, 1 Minuten, 1 Sekunden") ].

Definition emptyWorld : world := worldOf (bodyOf []) Accepts.

Definition pairWorld : world :=
  worldOf (bodyOf [withTelemetry; withoutTelemetry]) Accepts.

(** The store rejects the POST number [k] and answers the others. *)
Definition worldFailingAt (k : nat) (body : value) : world :=
  {| env := environment;
     getPosition := Fulfilled (responseOf body);
     mqttBroker := Accepts;
     addTemp := fun i =>
       if Nat.eqb i k then Rejected (Failure "ECONNRESET")
       else Fulfilled (VObj [ ("status", VNum (Int 200)) ]);
     isoTime := fun _ => "2023-05-01T10:11:12.345Z" |}.

(** A body whose [beacons] is not an array. *)
Definition bodyWithoutArray : value :=
  VObj [ ("data", VObj [ ("beacons", VStr "none") ]) ].

(** No text of the samples is read as a number. *)
Definition stringToNumber (_ : string) : num := NaN.

(** The keys of the samples are ASCII text. *)
Definition upperCase : string -> string := asciiUpperCase.

End Sample.

(** ** Reading the records, the messages and repeated invocations *)

Module Delivery.

(** The names of the properties the object literal of [extractBeaconData]
    sets, in order. *)
Definition baseNames : list string :=
  [ "beacon"; "gateway"; "latitude"; "longitude"; "sapLocation";
    "tempCondition_Low"; "tempCondition_High" ].

Definition telemetryNames : list string := [ "temperature"; "uptime" ].

(** A value that is not an object: what [JSON.parse] yields for [null], a
    boolean, a number or a text. *)
Definition isPrimitive (v : value) : bool :=
  match v with
  | VArr _ | VObj _ => false
  | _ => true
  end.

Fixpoint occurs (c : ascii) (s : string) : bool :=
  match s with
  | EmptyString => false
  | String c' s' => Ascii.eqb c c' || occurs c s'
  end.

(** The publish of [item] at the clock reading [k], field by field. *)
Definition publishedFor (w : world) (item : obj) (k : nat) (e : event) : Prop :=
  exists message,
    e = MqttPublish ("beacon/" ++ ToString (prop item "gatewayMac")) message
    /\ field message "beacon" = prop item "beacon"
    /\ field message "gateway" = prop item "gateway"
    /\ field message "latitude" = prop item "latitude"
    /\ field message "longitude" = prop item "longitude"
    /\ field message "storageLocation" = prop item "sapLocation"
    /\ field message "tempCondition_Low" = prop item "tempCondition_Low"
    /\ field message "tempCondition_High" = prop item "tempCondition_High"
    /\ field message "currentDateTime" = VStr (formatted (isoTime w k))
    /\ field message "temperature"
       = or_else (prop item "temperature") (VNum (Int 0))
    /\ field message "uptime" = VUndefined.

(** The append of [item] at the clock reading [k], field by field. *)
Definition appendedFor (w : world) (item : obj) (k : nat) (body : value) : Prop :=
  field body "beacon" = prop item "beacon"
  /\ field body "gateway" = prop item "gateway"
  /\ field body "latitude" = prop item "latitude"
  /\ field body "longitude" = prop item "longitude"
  /\ field body "tempConditionLow" = prop item "tempCondition_Low"
  /\ field body "tempConditionHigh" = prop item "tempCondition_High"
  /\ field body "sapLocation" = prop item "sapLocation"
  /\ field body "events"
     = eventList (formatted (isoTime w k))
         (or_else (prop item "temperature") (VNum (Int 0)))
  /\ field body "uptime" = VUndefined.

(** The state in which one more client is open, holding [batch]. *)
Definition withOpenClient (s : state) (batch : list obj) : state :=
  {| clockReads := clockReads s; postsSent := postsSent s;
     listeners := listeners s;
     openClients := (openClients s ++ [batch])%list |}.

(** The bodies of the POSTs of a run, in the order they were issued. *)
Definition postedBodies (t : list event) : list value :=
  flat_map (fun e => match e with AxiosPost _ body => [body] | _ => [] end) t.

(** The state after one invocation per world of [ws], in order, on the
    same [io] object. *)
Fixpoint invocations (StringToNumber : string -> num)
    (toUpperCase : string -> string) (ws : list world) (s : state) : state :=
  match ws with
  | [] => s
  | w :: ws' =>
      invocations StringToNumber toUpperCase ws' (after (fetchDataAndSend StringToNumber toUpperCase w s))
  end.

End Delivery.
Import Delivery.

(** ** More sample data *)

Module Cases.

(** An entry whose [dynamb] is [null]. *)
Definition nullTelemetry : value :=
  VObj [ ("ee10",
          VObj [ ("nearestGatewayData", VObj [ ("device", VStr "gw4") ]);
                 ("location", Sample.location);
                 ("dynamb", VNull) ]) ].

(** An entry whose [dynamb] has a temperature and no uptime. *)
Definition noUptime : value :=
  VObj [ ("ff11",
          VObj [ ("nearestGatewayData", VObj [ ("device", VStr "gw5") ]);
                 ("location", Sample.location);
                 ("dynamb", VObj [ ("temperature", VNum (Int 19)) ]) ]) ].

Definition pair : list value := [Sample.withTelemetry; Sample.withoutTelemetry].

Definition pairRecords : list obj :=
  [Sample.recordWithTelemetry; Sample.recordWithoutTelemetry].

Definition refusingWorld : world :=
  Sample.worldOf (Sample.bodyOf pair) (Refuses (Failure "ECONNREFUSED")).


(** An entry whose [dynamb] is a number. *)
Definition numericTelemetry : value :=
  VObj [ ("aa12",
          VObj [ ("nearestGatewayData", VObj [ ("device", VStr "gw6") ]);
                 ("location", Sample.location);
                 ("dynamb", VNum (Int 5)) ]) ].

(** The position source cannot be reached. *)
Definition unreachableWorld : world :=
  {| env := Sample.environment;
     getPosition := Rejected (Failure "ECONNREFUSED");
     mqttBroker := Accepts;
     addTemp := fun _ => Fulfilled VNull;
     isoTime := fun _ => "2023-05-01T10:11:12.345Z" |}.

(** The store rejects the second POST. *)
Definition secondPostFails : world := Sample.worldFailingAt 1 (Sample.bodyOf pair).

End Cases.

(** ** Properties *)

Section Uptime.

Lemma isSafe_between (z : Z) :
  (- maxSafe <= z <= maxSafe)%Z -> isSafe z = true.
Proof. intros H. unfold isSafe. apply Z.leb_le. lia. Qed.

Lemma remainder_nonneg (s d : Z) :
  (0 <= s <= maxSafe)%Z -> (0 < d)%Z -> remainder (Int s) d = Int (s mod d).
Proof.
  intros Hs Hd. unfold remainder. rewrite isSafe_between by lia.
  now rewrite Z.rem_mod_nonneg by lia.
Qed.

Lemma floor_div_safe (s d : Z) :
  (- maxSafe <= s <= maxSafe)%Z -> floor_div (Int s) d = Int (s / d).
Proof. intros Hs. unfold floor_div. now rewrite isSafe_between. Qed.

Lemma string_of_num_safe (z : Z) :
  (- maxSafe <= z <= maxSafe)%Z -> string_of_num (Int z) = string_of_Z z.
Proof. intros Hz. unfold string_of_num. now rewrite isSafe_between. Qed.

Lemma formatUptime_refines (s : Z) :
  (0 <= s <= maxSafe)%Z -> formatUptime (Int s) = Spec.uptime_text s.
Proof.
  intros Hs. unfold formatUptime, Spec.uptime_text.
  change (60 * 60 * 24)%Z with 86400%Z. change (60 * 60)%Z with 3600%Z.
  unfold maxSafe in Hs.
  rewrite !remainder_nonneg by (unfold maxSafe; lia).
  pose proof (Z.mod_pos_bound s 86400 ltac:(lia)).
  pose proof (Z.mod_pos_bound s 3600 ltac:(lia)).
  pose proof (Z.mod_pos_bound s 60 ltac:(lia)).
  rewrite !floor_div_safe by (unfold maxSafe; lia).
  assert (0 <= s / 86400 <= s)%Z
    by (split; [apply Z.div_pos; lia | apply Z.div_le_upper_bound; lia]).
  assert (0 <= s mod 86400 / 3600 <= 86400)%Z
    by (split; [apply Z.div_pos; lia | apply Z.div_le_upper_bound; lia]).
  assert (0 <= s mod 3600 / 60 <= 3600)%Z
    by (split; [apply Z.div_pos; lia | apply Z.div_le_upper_bound; lia]).
  rewrite !string_of_num_safe by (unfold maxSafe; lia).
  reflexivity.
Qed.

(** C5 (as amended). For every non-negative whole number of seconds [s] up
    to 2^53 - 1, [formatUptime] returns "D Tage, H Stunden, M Minuten,
    S Sekunden" with D = floor(s/86400), H = floor((s mod 86400)/3600),
    M = floor((s mod 3600)/60), S = s mod 60; and 90061 seconds read
    "1 Tage, 1 Stunden, 1 Minuten, 1 Sekunden". *)
Theorem formatUptime_decomposition (s : Z) :
  (0 <= s <= maxSafe)%Z ->
  formatUptime (Int s)
  = string_of_Z (s / 86400) ++ " Tage, "
      ++ string_of_Z ((s mod 86400) / 3600) ++ " Stunden, "
      ++ string_of_Z ((s mod 3600) / 60) ++ " Minuten, "
      ++ string_of_Z (s mod 60) ++ " Sekunden"
  /\ formatUptime (Int 90061) = "1 Tage, 1 Stunden, 1 Minuten, 1 Sekunden".
Proof.
  intros Hs. split.
  - rewrite formatUptime_refines by assumption. reflexivity.
  - reflexivity.
Qed.

Lemma formatUptime_decomposition_witness :
  (0 <= 3725 <= maxSafe)%Z
  /\ formatUptime (Int 3725) = "0 Tage, 1 Stunden, 2 Minuten, 5 Sekunden".
Proof.
  assert (H : (0 <= 3725 <= maxSafe)%Z) by (unfold maxSafe; lia).
  split; [exact H | exact (proj1 (formatUptime_decomposition 3725 H))].
Defined.

(** C5 as the specification states it, refuted: 1519964874237628672 is a
    whole number of seconds that a double holds exactly; its quotient by
    86400 rounds up to the next integer, so the days printed are one more
    than floor(s/86400). *)
Lemma formatUptime_beyond_safe_integers :
  (0 <= 1519964874237628672)%Z
  /\ floorOf (binary64 1519964874237628672) = Int 1519964874237628672
  /\ (1519964874237628672 / 86400 = 17592186044416)%Z
  /\ formatUptime (Int 1519964874237628672)
     = "17592186044417 Tage, 23 Stunden, 57 Minuten, 52 Sekunden"
  /\ formatUptime (Int 1519964874237628672)
     <> Spec.uptime_text 1519964874237628672.
Proof.
  split; [lia |]. split; [vm_compute; reflexivity |].
  split; [reflexivity |]. split; [vm_compute; reflexivity |].
  vm_compute. discriminate.
Qed.

End Uptime.

Section ExtractionFacts.

Variable StringToNumber : string -> num.
Variable toUpperCase : string -> string.

Lemma getProp_ok (v : value) (k : string) :
  nullish v = false -> getProp v k = Ok (field v k).
Proof. intros H. unfold getProp. now rewrite H. Qed.

Lemma path2_ok (v : value) (a b : string) :
  nullish v = false -> nullish (field v a) = false ->
  path2 v a b = Ok (field (field v a) b).
Proof.
  intros Hv Ha. unfold path2. rewrite (getProp_ok _ _ Hv). simpl.
  now apply getProp_ok.
Qed.

Lemma path2_throw (v : value) (a b : string) :
  nullish (field v a) = true -> path2 v a b = Throw TypeError.
Proof.
  intros Ha. unfold path2, getProp.
  destruct (nullish v); simpl; [reflexivity |].
  unfold getProp. now rewrite Ha.
Qed.

Lemma path2_exn (v : value) (a b : string) (e : exn) :
  path2 v a b = Throw e -> e = TypeError.
Proof.
  unfold path2, getProp. destruct (nullish v); simpl; [congruence |].
  unfold getProp. destruct (nullish (field v a)); congruence.
Qed.

Lemma hasProperty_object (k : string) (v : value) (b : bool) :
  hasProperty k v = Ok b -> nullish v = false.
Proof. destruct v; simpl; intros H; congruence. Qed.

Lemma Object_keys_ok (v : value) (ks : list string) :
  Object_keys v = Ok ks -> nullish v = false /\ map fst (ownProps v) = ks.
Proof.
  unfold Object_keys. destruct (nullish v); intros H; [discriminate |].
  split; congruence.
Qed.

(** Every record the extraction returns has the seven copied fields first,
    and after them nothing or the two telemetry fields. *)
Lemma extractBeaconData_shape (beacon : value) (item : obj) :
  extractBeaconData StringToNumber toUpperCase beacon = Ok item ->
  exists b g la lo sap lw hi,
    let data :=
      [ ("beacon", b); ("gateway", g); ("latitude", la); ("longitude", lo);
        ("sapLocation", sap); ("tempCondition_Low", lw);
        ("tempCondition_High", hi) ] in
    item = data \/ exists t u, item = (data ++ [("temperature", t); ("uptime", u)])%list.
Proof.
  unfold extractBeaconData. intros H.
  repeat match type of H with
         | rbind ?r _ = _ => destruct r eqn:?; simpl in H; [| discriminate]
         end.
  match type of H with (if ?c then _ else _) = _ => destruct c end.
  - repeat match type of H with
           | rbind ?r _ = _ => destruct r eqn:?; simpl in H; [| discriminate]
           end.
    injection H as <-. do 7 eexists. right. do 2 eexists. reflexivity.
  - injection H as <-. do 7 eexists. left. reflexivity.
Qed.

(** The extraction sets no [gatewayMac]. *)
Lemma extracted_gatewayMac (beacon : value) (item : obj) :
  extractBeaconData StringToNumber toUpperCase beacon = Ok item ->
  prop item "gatewayMac" = VUndefined.
Proof.
  intros H. destruct (extractBeaconData_shape _ _ H)
    as (b & g & la & lo & sap & lw & hi & [-> | (t & u & ->)]); reflexivity.
Qed.


Lemma extract_no_key :
  extractBeaconData StringToNumber toUpperCase (VObj []) = Throw TypeError.
Proof. reflexivity. Qed.



Lemma extract_wellFormed (entry : value) :
  wellFormedEntry entry = true ->
  exists item,
    extractBeaconData StringToNumber toUpperCase entry = Ok item
    /\ assoc "beacon" item = Some (VStr (toUpperCase (entryKey entry))).
Proof.
  destruct entry as [| | | | | |p]; try discriminate.
  destruct p as [|[k v] rest]; try discriminate.
  destruct v as [| | | | | |q]; try discriminate.
  destruct rest; try discriminate.
  simpl. intros H. apply andb_true_iff in H as [H Hd].
  apply andb_true_iff in H as [Hg Hl].
  unfold extractBeaconData, Object_keys, getProp at 1, field. simpl.
  rewrite String.eqb_refl. simpl.
  unfold path2, getProp, field. simpl.
  destruct (assoc "nearestGatewayData" q) as [[| | | | | |?]|]; try discriminate.
  destruct (assoc "location" q) as [[| | | | | |?]|]; try discriminate.
  simpl.
  destruct (assoc "dynamb" q) as [[| | | | | |?]|]; try discriminate; simpl;
    eexists; split; reflexivity.
Qed.

End ExtractionFacts.

Lemma prefix_nil {A : Type} (r : run A) : prefix [] r = r.
Proof. destruct r. reflexivity. Qed.

Lemma trace_prefix {A : Type} (t : list event) (r : run A) :
  trace (prefix t r) = (t ++ trace r)%list.
Proof. destruct r. reflexivity. Qed.

Lemma after_prefix {A : Type} (t : list event) (r : run A) :
  after (prefix t r) = after r.
Proof. destruct r. reflexivity. Qed.

Lemma outcome_prefix {A : Type} (t : list event) (r : run A) :
  outcome (prefix t r) = outcome r.
Proof. destruct r. reflexivity. Qed.

Lemma prefix_prefix {A : Type} (t1 t2 : list event) (r : run A) :
  prefix t1 (prefix t2 r) = prefix (t1 ++ t2) r.
Proof. destruct r. cbn [prefix]. now rewrite app_assoc. Qed.

Section MonadFacts.

Context {A B : Type}.

Lemma bind_emit (e : event) (k : unit -> M B) (w : world) (s : state) :
  bind (emit e) k w s = prefix [e] (k tt w s).
Proof. reflexivity. Qed.

Lemma bind_await (p : world -> state -> settled A) (k : A -> M B)
    (w : world) (s : state) :
  bind (await p) k w s
  = match p w s with
    | Fulfilled a => k a w s
    | Rejected e => Run [] s (Rejected e)
    | Unsettled => Run [] s Unsettled
    end.
Proof.
  unfold bind, await. destruct (p w s); try reflexivity. apply prefix_nil.
Qed.

Lemma bind_lift (r : result A) (k : A -> M B) (w : world) (s : state) :
  bind (lift r) k w s
  = match r with
    | Ok a => k a w s
    | Throw e => Run [] s (Rejected e)
    end.
Proof.
  unfold lift. rewrite bind_await. destruct r; reflexivity.
Qed.

Lemma bind_ret (a : A) (k : A -> M B) (w : world) (s : state) :
  bind (ret a) k w s = k a w s.
Proof. unfold bind, ret. apply prefix_nil. Qed.

(** A bind, read off the run of its first part. *)
Lemma bind_run (m : M A) (k : A -> M B) (w : world) (s : state) :
  bind m k w s
  = match outcome (m w s) with
    | Fulfilled a => prefix (trace (m w s)) (k a w (after (m w s)))
    | Rejected e => Run (trace (m w s)) (after (m w s)) (Rejected e)
    | Unsettled => Run (trace (m w s)) (after (m w s)) Unsettled
    end.
Proof. unfold bind. destruct (m w s) as [t s1 [a | e |]]; reflexivity. Qed.

End MonadFacts.

Lemma bind_assoc {A B C : Type} (m : M A) (f : A -> M B) (k : B -> M C)
    (w : world) (s : state) :
  bind (bind m f) k w s = bind m (fun a => bind (f a) k) w s.
Proof.
  unfold bind. destruct (m w s) as [t s1 [a | e |]]; try reflexivity.
  destruct (f a w s1) as [t' s2 [b | e |]]; try reflexivity.
  cbn [prefix]. destruct (k b w s2) as [t'' s3 o]. cbn [prefix].
  now rewrite app_assoc.
Qed.

Ltac flatten_apps := repeat (progress cbn [app] || rewrite <- app_assoc).

Section RunFacts.

Variable StringToNumber : string -> num.
Variable toUpperCase : string -> string.

Lemma beaconsAt_truthy (body : value) (l : list value) :
  beaconsAt body = Some l ->
  nullish body = false
  /\ nullish (field body "data") = false
  /\ truthy (field body "data") = true
  /\ field (field body "data") "beacons" = VArr l.
Proof.
  unfold beaconsAt. intros H.
  destruct (field (field body "data") "beacons") eqn:E; try discriminate.
  injection H as ->. repeat split.
  - destruct body; try reflexivity; discriminate.
  - destruct (field body "data"); try reflexivity; discriminate.
  - destruct (field body "data") as [| | | [|z|] |[|c s0] | |]; try reflexivity;
      discriminate.
Qed.

Lemma guarded_trace (r : run unit) :
  exists lines,
    trace (guarded r) = (AxiosGet getPositionUrl :: trace r ++ lines)%list
    /\ Forall (fun e => isSink e = false) lines
    /\ after (guarded r) = after r.
Proof.
  destruct r as [t s1 [[] | e |]]; cbn [guarded trace after].
  - exists []. rewrite app_nil_r. auto.
  - exists [caughtLine e]. repeat split. constructor; [reflexivity | constructor].
  - exists []. rewrite app_nil_r. auto.
Qed.

Lemma fetch_rejected (w : world) (s : state) (e : exn) :
  getPosition w = Rejected e ->
  fetchDataAndSend StringToNumber toUpperCase w s
  = Run [AxiosGet getPositionUrl; caughtLine e] s (Fulfilled tt).
Proof.
  intros H. unfold fetchDataAndSend, try_catch.
  rewrite bind_emit, bind_await, H. reflexivity.
Qed.

Lemma fetch_unsettled (w : world) (s : state) :
  getPosition w = Unsettled ->
  fetchDataAndSend StringToNumber toUpperCase w s = Run [AxiosGet getPositionUrl] s Unsettled.
Proof.
  intros H. unfold fetchDataAndSend, try_catch.
  rewrite bind_emit, bind_await, H. reflexivity.
Qed.

Lemma fetch_malformed (w : world) (s : state) (response : value) :
  getPosition w = Fulfilled response ->
  beaconsAt (field response "data") = None ->
  exists line,
    fetchDataAndSend StringToNumber toUpperCase w s
    = Run [AxiosGet getPositionUrl; line] s (Fulfilled tt)
    /\ (line = ConsoleError "No beacons found in the response." None
        \/ line = caughtLine TypeError).
Proof.
  intros H Hb. unfold fetchDataAndSend, try_catch.
  rewrite bind_emit, bind_await, H. rewrite bind_lift.
  unfold getProp at 1.
  destruct (nullish response) eqn:Hr; [eexists; split; [reflexivity | auto] |].
  rewrite bind_lift. unfold getProp at 1.
  destruct (nullish (field response "data")) eqn:Hn;
    [eexists; split; [reflexivity | auto] |].
  destruct (truthy (field (field response "data") "data")) eqn:Ht; cbn [negb].
  - rewrite bind_assoc, bind_lift. unfold getProp at 1.
    assert (Hd : nullish (field (field response "data") "data") = false).
    { destruct (field (field response "data") "data"); try reflexivity; discriminate. }
    rewrite Hd, bind_ret. unfold beaconsAt in Hb.
    destruct (field (field (field response "data") "data") "beacons");
      try discriminate; eexists; (split; [reflexivity | auto]).
  - rewrite bind_ret. eexists; split; [reflexivity | auto].
Qed.

Lemma fetch_wellformed (w : world) (s : state) (response : value) (l : list value) :
  getPosition w = Fulfilled response ->
  beaconsAt (field response "data") = Some l ->
  fetchDataAndSend StringToNumber toUpperCase w s
  = match extractAll StringToNumber toUpperCase l with
    | Throw e => Run [AxiosGet getPositionUrl; caughtLine e] s (Fulfilled tt)
    | Ok extractedData => guarded (fanOut extractedData l w s)
    end.
Proof.
  intros H Hb.
  assert (Hr : nullish response = false).
  { destruct response; try reflexivity; discriminate. }
  apply beaconsAt_truthy in Hb as (Hn & Hd & Ht & Hl).
  unfold fetchDataAndSend, try_catch.
  rewrite bind_emit, bind_await, H. rewrite bind_lift, (getProp_ok _ _ Hr).
  rewrite bind_lift, (getProp_ok _ _ Hn). rewrite Ht. cbn [negb].
  rewrite bind_assoc, bind_lift, (getProp_ok _ _ Hd), bind_ret, Hl.
  cbn [isArray negb]. rewrite bind_lift. cbn [elements]. rewrite bind_lift.
  destruct (extractAll StringToNumber toUpperCase l) as [items | e]; [| reflexivity].
  change (bind (emit (ConsoleLog "extractedData:" (VArr (map VObj items)))) _ w s)
    with (fanOut items l w s).
  destruct (fanOut items l w s) as [t s1 [[] | e |]]; reflexivity.
Qed.

Lemma publishItem_run (item : obj) (w : world) (s : state) :
  exists topic message,
    publishItem item w s
    = Run [MqttPublish topic message]
        {| clockReads := S (clockReads s); postsSent := postsSent s;
           listeners := listeners s;
           openClients := openClients s |}
        (Fulfilled tt).
Proof. do 2 eexists. reflexivity. Qed.

(** The [forEach] of [sendToMqtt] publishes once per item and cannot fail. *)
Lemma publish_all (items : list obj) (w : world) (s : state) :
  exists pubs s1,
    forEach publishItem items w s = Run pubs s1 (Fulfilled tt)
    /\ Forall (fun e => isPublish e = true) pubs
    /\ List.length pubs = List.length items
    /\ listeners s1 = listeners s
    /\ postsSent s1 = postsSent s.
Proof.
  revert s. induction items as [|x l IH]; intros s.
  - exists [], s. repeat split. constructor.
  - cbn [forEach].
    destruct (publishItem_run x w s) as (topic & message & Hx).
    unfold bind at 1. rewrite Hx.
    match goal with
    | |- context [forEach publishItem l w ?s'] =>
        destruct (IH s') as (pubs & s1 & -> & Hf & Hl & Hs & Hp)
    end.
    exists (MqttPublish topic message :: pubs), s1. cbn [prefix app].
    repeat split; auto. cbn [List.length]. now rewrite Hl.
Qed.

Lemma appendItem_run (item : obj) (w : world) (s : state) :
  exists body,
    body
    = VObj [ ("beacon", prop item "beacon");
             ("gateway", prop item "gateway");
             ("latitude", prop item "latitude");
             ("longitude", prop item "longitude");
             ("tempConditionLow", prop item "tempCondition_Low");
             ("tempConditionHigh", prop item "tempCondition_High");
             ("sapLocation", prop item "sapLocation");
             ("events",
               eventList (formatted (isoTime w (clockReads s)))
                 (or_else (prop item "temperature") (VNum (Int 0)))) ]
    /\ appendItem item w s
       = match addTemp w (postsSent s) with
         | Fulfilled _ =>
             Run [AxiosPost addTempUrl body; AxiosPostFulfilled]
               {| clockReads := S (clockReads s); postsSent := S (postsSent s);
                  listeners := listeners s;
                  openClients := openClients s |}
               (Fulfilled tt)
         | Rejected e =>
             Run [AxiosPost addTempUrl body]
               {| clockReads := S (clockReads s); postsSent := postsSent s;
                  listeners := listeners s;
                  openClients := openClients s |}
               (Rejected e)
         | Unsettled =>
             Run [AxiosPost addTempUrl body]
               {| clockReads := S (clockReads s); postsSent := postsSent s;
                  listeners := listeners s;
                  openClients := openClients s |}
               Unsettled
         end.
Proof.
  eexists. split; [reflexivity |].
  unfold appendItem, bind at 1, getCurrentDateTime. unfold post.
  rewrite bind_assoc, bind_emit, bind_assoc, bind_await.
  cbn [postsSent clockReads listeners].
  destruct (addTemp w (postsSent s)); reflexivity.
Qed.

(** The loop of [sendToMongoDB]: answered appends, one after the other, and
    when one is not answered it is the last thing the loop did. *)
Lemma append_all (items : list obj) (w : world) (s : state) :
  exists bodies tail,
    trace (forEach appendItem items w s) = (answered bodies ++ tail)%list
    /\ List.length bodies <= List.length items
    /\ listeners (after (forEach appendItem items w s)) = listeners s
    /\ ((outcome (forEach appendItem items w s) = Fulfilled tt
         /\ tail = [] /\ List.length bodies = List.length items)
        \/ (outcome (forEach appendItem items w s) <> Fulfilled tt
            /\ exists b, tail = [AxiosPost addTempUrl b])).
Proof.
  revert s. induction items as [|x l IH]; intros s.
  - exists [], []. cbn. repeat split; auto.
  - destruct (appendItem_run x w s) as (body & _ & Hx).
    assert (E : forEach appendItem (x :: l) w s
                = bind (appendItem x) (fun _ => forEach appendItem l) w s)
      by reflexivity.
    rewrite E. clear E. unfold bind. rewrite Hx.
    destruct (addTemp w (postsSent s)) as [resp | e |].
    + match goal with
      | |- context [forEach appendItem l w ?s'] =>
          destruct (IH s') as (bodies & tail & Ht & Hlen & Hls & Hcase)
      end.
      exists (body :: bodies), tail.
      rewrite trace_prefix, after_prefix, outcome_prefix, Ht.
      split; [reflexivity |]. split; [cbn [List.length]; lia |].
      split; [exact Hls |].
      destruct Hcase as [(Ho & -> & Hn) | (Ho & b & ->)].
      * left. repeat split; auto. cbn [List.length]. now rewrite Hn.
      * right. split; eauto.
    + exists [], [AxiosPost addTempUrl body]. cbn. repeat split; try lia.
      right. split; [discriminate | eauto].
    + exists [], [AxiosPost addTempUrl body]. cbn. repeat split; try lia.
      right. split; [discriminate | eauto].
Qed.

Lemma sendToMqtt_run (items : list obj) (w : world) (s : state) :
  sendToMqtt items w s
  = prefix [connectCall w]
      match mqttBroker w with
      | Accepts => bind (onConnect items) (fun _ => emit MqttClose) w s
      | Refuses e => Run [] (withOpenClient s items) (Rejected e)
      | Silent => Run [] (withOpenClient s items) Unsettled
      | ClosesEarly => Run [MqttClose] (withOpenClient s items) (Fulfilled tt)
      end.
Proof.
  unfold sendToMqtt. rewrite bind_emit. destruct (mqttBroker w); reflexivity.
Qed.

Lemma sendToMqtt_accepted_run (items : list obj) (w : world) (s s1 : state)
    (pubs : list event) :
  mqttBroker w = Accepts ->
  forEach publishItem items w s = Run pubs s1 (Fulfilled tt) ->
  sendToMqtt items w s
  = Run (connectCall w :: pubs ++ [MqttEnd; MqttClose])%list s1 (Fulfilled tt).
Proof.
  intros H Hp. rewrite sendToMqtt_run, H. unfold onConnect.
  rewrite bind_assoc. unfold bind at 1. rewrite Hp. reflexivity.
Qed.

Lemma fanOut_refused (items : list obj) (l : list value) (w : world) (s : state)
    (e : exn) :
  mqttBroker w = Refuses e ->
  fanOut items l w s
  = Run [batchLine items; connectCall w] (withOpenClient s items) (Rejected e).
Proof.
  intros H. unfold fanOut. rewrite bind_emit, bind_run, sendToMqtt_run, H.
  reflexivity.
Qed.

Lemma fanOut_silent (items : list obj) (l : list value) (w : world) (s : state) :
  mqttBroker w = Silent ->
  fanOut items l w s
  = Run [batchLine items; connectCall w] (withOpenClient s items) Unsettled.
Proof.
  intros H. unfold fanOut. rewrite bind_emit, bind_run, sendToMqtt_run, H.
  reflexivity.
Qed.

(** Once the promise of [sendToMqtt] is resolved: the appends, then (only
    when every append was answered) the registration. *)
Lemma fanOut_resolved (items : list obj) (l : list value) (w : world)
    (s s1 : state) (mq : list event) :
  sendToMqtt items w s = Run mq s1 (Fulfilled tt) ->
  listeners s1 = listeners s ->
  fanOut items l w s
  = prefix (batchLine items :: mq)
      (bind (forEach appendItem items)
         (fun _ => ioOnConnection (VArr (map VObj items))) w s1)
  /\ exists bodies tail sub,
      trace (fanOut items l w s)
      = (batchLine items :: mq ++ answered bodies ++ tail ++ sub)%list
      /\ List.length bodies <= List.length items
      /\ ((tail = [] /\ sub = [IoOn "connection"]
           /\ List.length bodies = List.length items
           /\ outcome (fanOut items l w s) = Fulfilled tt
           /\ listeners (after (fanOut items l w s))
              = (listeners s ++ [EmitBeaconData (VArr (map VObj items))])%list)
          \/ (sub = [] /\ (exists b, tail = [AxiosPost addTempUrl b])
              /\ outcome (fanOut items l w s) <> Fulfilled tt
              /\ listeners (after (fanOut items l w s)) = listeners s)).
Proof.
  intros Hm Hs0.
  destruct (append_all items w s1) as (bodies & tail & Ht & Hlen & Hls & Hcase).
  assert (E : fanOut items l w s
              = prefix (batchLine items :: mq)
                  (bind (forEach appendItem items)
                     (fun _ => ioOnConnection (VArr (map VObj items))) w s1)).
  { unfold fanOut. rewrite bind_emit. unfold bind at 1. rewrite Hm.
    rewrite prefix_prefix. reflexivity. }
  split; [exact E |]. rewrite E. clear E. rewrite bind_run.
  exists bodies, tail.
  destruct Hcase as [(Hoa & -> & Hn) | (Hoa & b & ->)].
  - exists [IoOn "connection"]. rewrite Hoa, Ht.
    unfold ioOnConnection. rewrite bind_emit. unfold update.
    rewrite !trace_prefix, !after_prefix, !outcome_prefix.
    cbn [trace after outcome listeners].
    split.
    { flatten_apps. reflexivity. }
    split; [exact Hlen |]. left. repeat split; auto. now rewrite Hls, Hs0.
  - exists [].
    destruct (outcome (forEach appendItem items w s1)) as [[] | e |] eqn:Ho;
      [congruence | |];
      rewrite !trace_prefix, !after_prefix, !outcome_prefix;
      cbn [trace after outcome]; rewrite Ht;
      (split; [flatten_apps; reflexivity |]);
      (split; [exact Hlen |]); right; repeat split; eauto; try discriminate;
      now rewrite Hls, Hs0.
Qed.

(** With a broker that accepts: the whole MQTT session, then the appends,
    then (only when every append was answered) the registration. *)
Lemma fanOut_accepted (items : list obj) (l : list value) (w : world) (s : state) :
  mqttBroker w = Accepts ->
  exists pubs bodies tail sub,
    trace (fanOut items l w s)
    = (batchLine items :: connectCall w :: pubs ++ [MqttEnd; MqttClose]
         ++ answered bodies ++ tail ++ sub)%list
    /\ Forall (fun e => isPublish e = true) pubs
    /\ List.length pubs = List.length items
    /\ List.length bodies <= List.length items
    /\ ((tail = [] /\ sub = [IoOn "connection"]
         /\ List.length bodies = List.length items
         /\ outcome (fanOut items l w s) = Fulfilled tt
         /\ listeners (after (fanOut items l w s))
            = (listeners s ++ [EmitBeaconData (VArr (map VObj items))])%list)
        \/ (sub = [] /\ (exists b, tail = [AxiosPost addTempUrl b])
            /\ outcome (fanOut items l w s) <> Fulfilled tt
            /\ listeners (after (fanOut items l w s)) = listeners s)).
Proof.
  intros H.
  destruct (publish_all items w s) as (pubs & s1 & Hp & Hf & Hl & Hs0 & _).
  destruct (fanOut_resolved items l w s s1 _
              (sendToMqtt_accepted_run _ _ _ _ _ H Hp) Hs0)
    as (_ & bodies & tail & sub & Ht & Hlen & Hcase).
  exists pubs, bodies, tail, sub. rewrite Ht.
  split; [flatten_apps; reflexivity |]. auto.
Qed.

(** When ['close'] comes before ['connect']: nothing is published, and the
    appends and the registration follow all the same. *)
Lemma fanOut_early (items : list obj) (l : list value) (w : world) (s : state) :
  mqttBroker w = ClosesEarly ->
  exists bodies tail sub,
    trace (fanOut items l w s)
    = (batchLine items :: connectCall w :: MqttClose
         :: answered bodies ++ tail ++ sub)%list
    /\ List.length bodies <= List.length items
    /\ ((tail = [] /\ sub = [IoOn "connection"]
         /\ List.length bodies = List.length items
         /\ outcome (fanOut items l w s) = Fulfilled tt
         /\ listeners (after (fanOut items l w s))
            = (listeners s ++ [EmitBeaconData (VArr (map VObj items))])%list)
        \/ (sub = [] /\ (exists b, tail = [AxiosPost addTempUrl b])
            /\ outcome (fanOut items l w s) <> Fulfilled tt
            /\ listeners (after (fanOut items l w s)) = listeners s)).
Proof.
  intros H.
  assert (Hm : sendToMqtt items w s
               = Run [connectCall w; MqttClose] (withOpenClient s items)
                   (Fulfilled tt)).
  { rewrite sendToMqtt_run, H. reflexivity. }
  destruct (fanOut_resolved items l w s _ _ Hm eq_refl)
    as (_ & bodies & tail & sub & Ht & Hlen & Hcase).
  exists bodies, tail, sub. rewrite Ht. auto.
Qed.

Lemma answered_isAppend (bodies : list value) :
  Forall (fun e => isAppend e = true) (answered bodies).
Proof.
  induction bodies as [|b l IH]; cbn; [constructor |].
  constructor; [reflexivity |]. constructor; [reflexivity | exact IH].
Qed.


(** Every run of [fetchDataAndSend] has one of three forms: it stops before
    the fan-out; the promise of [sendToMqtt] is not resolved; or it is
    resolved, after a whole session or after an early ['close'], and the
    appends follow. *)
Lemma fetch_trace (w : world) (s : state) :
  (exists lines,
      trace (fetchDataAndSend StringToNumber toUpperCase w s)
      = AxiosGet getPositionUrl :: lines
      /\ Forall (fun e => isSink e = false) lines
      /\ listeners (after (fetchDataAndSend StringToNumber toUpperCase w s))
         = listeners s)
  \/ (exists items lines,
        mqttBroker w <> Accepts
        /\ mqttBroker w <> ClosesEarly
        /\ trace (fetchDataAndSend StringToNumber toUpperCase w s)
           = ([AxiosGet getPositionUrl; batchLine items; connectCall w] ++ lines)%list
        /\ Forall (fun e => isSink e = false) lines
        /\ listeners (after (fetchDataAndSend StringToNumber toUpperCase w s))
           = listeners s)
  \/ (exists items mq bodies tail sub lines,
        trace (fetchDataAndSend StringToNumber toUpperCase w s)
        = (AxiosGet getPositionUrl :: batchLine items :: mq
             ++ answered bodies ++ tail ++ sub ++ lines)%list
        /\ ((mqttBroker w = Accepts /\ mqttComplete w (List.length items) mq)
            \/ (mqttBroker w = ClosesEarly /\ mq = [connectCall w; MqttClose]))
        /\ List.length bodies <= List.length items
        /\ Forall (fun e => isSink e = false) lines
        /\ ((tail = [] /\ sub = [IoOn "connection"]
             /\ List.length bodies = List.length items
             /\ listeners (after (fetchDataAndSend StringToNumber toUpperCase w s))
                = (listeners s ++ [EmitBeaconData (VArr (map VObj items))])%list)
            \/ (sub = [] /\ (exists b, tail = [AxiosPost addTempUrl b])
                /\ listeners (after (fetchDataAndSend StringToNumber toUpperCase w s))
                   = listeners s))).
Proof.
  destruct (getPosition w) as [response | e |] eqn:Hg.
  - destruct (beaconsAt (field response "data")) as [l |] eqn:Hb.
    + rewrite (fetch_wellformed _ s _ _ Hg Hb).
      destruct (extractAll StringToNumber toUpperCase l) as [items | e].
      * destruct (guarded_trace (fanOut items l w s)) as (lines & Hgt & Hlines & Hga).
        rewrite Hgt, Hga.
        destruct (mqttBroker w) as [| e | |] eqn:Hm.
        -- right. right.
           destruct (fanOut_accepted items l w s Hm)
             as (pubs & bodies & tail & sub & Ht & Hp & Hl & Hlen & Hcase).
           exists items, (connectCall w :: pubs ++ [MqttEnd; MqttClose])%list,
             bodies, tail, sub, lines. rewrite Ht.
           split; [flatten_apps; reflexivity |].
           split; [left; split; [reflexivity | exists pubs; auto] |].
           split; [exact Hlen |]. split; [exact Hlines |].
           destruct Hcase as [(-> & -> & Hn & Ho & Hls) | (-> & (b & ->) & Ho & Hls)].
           ++ left. auto.
           ++ right. eauto.
        -- right. left. exists items, lines.
           rewrite (fanOut_refused _ _ _ _ _ Hm). cbn [trace after].
           repeat split; auto; discriminate.
        -- right. left. exists items, lines.
           rewrite (fanOut_silent _ _ _ _ Hm). cbn [trace after].
           repeat split; auto; discriminate.
        -- right. right.
           destruct (fanOut_early items l w s Hm)
             as (bodies & tail & sub & Ht & Hlen & Hcase).
           exists items, [connectCall w; MqttClose], bodies, tail, sub, lines.
           rewrite Ht.
           split; [flatten_apps; reflexivity |].
           split; [right; split; reflexivity |].
           split; [exact Hlen |]. split; [exact Hlines |].
           destruct Hcase as [(-> & -> & Hn & Ho & Hls) | (-> & (b & ->) & Ho & Hls)].
           ++ left. auto.
           ++ right. eauto.
      * left. exists [caughtLine e]. cbn. repeat split; auto.
    + left. destruct (fetch_malformed _ s _ Hg Hb) as (line & -> & Hline).
      exists [line]. cbn [trace after]. repeat split; auto.
      destruct Hline as [-> | ->]; auto.
  - left. rewrite (fetch_rejected _ _ _ Hg). exists [caughtLine e].
    cbn. repeat split; auto.
  - left. rewrite (fetch_unsettled _ _ Hg). exists []. cbn. repeat split; auto.
Qed.

Lemma fanOut_empty (l : list value) (w : world) (s : state) :
  mqttBroker w = Accepts ->
  fanOut [] l w s
  = Run [batchLine []; connectCall w; MqttEnd; MqttClose; IoOn "connection"]
      {| clockReads := clockReads s; postsSent := postsSent s;
         listeners := (listeners s ++ [EmitBeaconData (VArr [])])%list;
         openClients := openClients s |}
      (Fulfilled tt).
Proof.
  intros H. unfold fanOut. rewrite bind_emit. unfold bind at 1.
  rewrite sendToMqtt_run, H. reflexivity.
Qed.

Lemma fanOut_empty_early (l : list value) (w : world) (s : state) :
  mqttBroker w = ClosesEarly ->
  fanOut [] l w s
  = Run [batchLine []; connectCall w; MqttClose; IoOn "connection"]
      {| clockReads := clockReads s; postsSent := postsSent s;
         listeners := (listeners s ++ [EmitBeaconData (VArr [])])%list;
         openClients := (openClients s ++ [[]])%list |}
      (Fulfilled tt).
Proof.
  intros H. unfold fanOut. rewrite bind_emit. unfold bind at 1.
  rewrite sendToMqtt_run, H. reflexivity.
Qed.

Lemma fanOut_connects (items : list obj) (l : list value) (w : world) (s : state) :
  exists rest,
    trace (fanOut items l w s) = batchLine items :: connectCall w :: rest.
Proof.
  destruct (mqttBroker w) as [| e | |] eqn:Hm.
  - destruct (fanOut_accepted items l w s Hm) as (? & ? & ? & ? & -> & _).
    eexists. reflexivity.
  - rewrite (fanOut_refused _ _ _ _ _ Hm). eexists. reflexivity.
  - rewrite (fanOut_silent _ _ _ _ Hm). eexists. reflexivity.
  - destruct (fanOut_early items l w s Hm) as (? & ? & ? & -> & _).
    eexists. reflexivity.
Qed.

Lemma fanOut_head (items : list obj) (l : list value) (w : world) (s : state) :
  exists rest, trace (fanOut items l w s) = batchLine items :: rest.
Proof.
  unfold fanOut. rewrite bind_emit, trace_prefix. eexists. reflexivity.
Qed.

Lemma extractAll_wellFormed (l : list value) :
  Forall (fun entry => wellFormedEntry entry = true) l ->
  exists records,
    extractAll StringToNumber toUpperCase l = Ok records
    /\ Forall2
         (fun entry record =>
            assoc "beacon" record = Some (VStr (toUpperCase (entryKey entry))))
         l records.
Proof.
  induction 1 as [|x l Hx _ IH].
  - exists []. split; [reflexivity | constructor].
  - destruct (extract_wellFormed StringToNumber toUpperCase x Hx) as (item & Hi & Hk).
    destruct IH as (records & Hr & Hf).
    exists (item :: records). cbn [extractAll]. rewrite Hi. cbn [rbind].
    rewrite Hr. split; [reflexivity | now constructor].
Qed.

Lemma or_else_defined (v : value) : or_else v (VNum (Int 0)) <> VUndefined.
Proof.
  unfold or_else. destruct (truthy v) eqn:E; [| discriminate].
  intros ->. discriminate.
Qed.

Lemma or_else_nullish (v : value) :
  nullish v = true -> or_else v (VNum (Int 0)) = VNum (Int 0).
Proof. destruct v; try discriminate; reflexivity. Qed.

End RunFacts.

(** ** The relay, statement by statement *)

Section Statements.

Variable StringToNumber : string -> num.
Variable toUpperCase : string -> string.

(** C1 (as amended). The fan-out is not conditional on there being a
    record: whenever the response is well-formed and every entry extracts,
    the batch is logged and the MQTT connection is opened, and with a
    broker that accepts the session runs to its end with one publish per
    record.  When the batch is empty nothing is published and no append
    is issued; with a broker that accepts the session is opened and closed
    and the listener registered. *)
Theorem fanout_runs_for_every_batch (w : world) (s : state) (response : value)
    (beacons : list value) (items : list obj) :
  getPosition w = Fulfilled response ->
  beaconsAt (field response "data") = Some beacons ->
  extractAll StringToNumber toUpperCase beacons = Ok items ->
  (exists rest,
      trace (fetchDataAndSend StringToNumber toUpperCase w s)
      = AxiosGet getPositionUrl :: batchLine items :: connectCall w :: rest)
  /\ (mqttBroker w = Accepts ->
      exists pubs rest,
        trace (fetchDataAndSend StringToNumber toUpperCase w s)
        = (AxiosGet getPositionUrl :: batchLine items :: connectCall w
             :: pubs ++ MqttEnd :: MqttClose :: rest)%list
        /\ Forall (fun e => isPublish e = true) pubs
        /\ List.length pubs = List.length items)
  /\ (items = [] ->
      Forall (fun e => isPublish e = false /\ isAppend e = false)
        (trace (fetchDataAndSend StringToNumber toUpperCase w s)))
  /\ (items = [] ->
      mqttBroker w = Accepts ->
      trace (fetchDataAndSend StringToNumber toUpperCase w s)
      = [ AxiosGet getPositionUrl; batchLine []; connectCall w; MqttEnd;
          MqttClose; IoOn "connection" ]).
Proof.
  intros Hg Hb He. rewrite (fetch_wellformed _ _ _ s _ _ Hg Hb), He.
  split; [| split; [| split]].
  - destruct (guarded_trace (fanOut items beacons w s)) as (lines & -> & _).
    destruct (fanOut_connects items beacons w s) as (rest & ->).
    eexists. reflexivity.
  - intros Hm.
    destruct (guarded_trace (fanOut items beacons w s)) as (lines & -> & _).
    destruct (fanOut_accepted items beacons w s Hm)
      as (pubs & bodies & tail & sub & -> & Hp & Hl & _).
    exists pubs. eexists. split; [| auto]. flatten_apps. reflexivity.
  - intros ->. destruct (mqttBroker w) as [| e | |] eqn:Hm.
    + rewrite (fanOut_empty _ _ _ Hm). cbn [guarded trace].
      repeat (constructor; [cbn; auto |]). constructor.
    + rewrite (fanOut_refused _ _ _ _ _ Hm). cbn [guarded trace app].
      repeat (constructor; [cbn; auto |]). constructor.
    + rewrite (fanOut_silent _ _ _ _ Hm). cbn [guarded trace app].
      repeat (constructor; [cbn; auto |]). constructor.
    + rewrite (fanOut_empty_early _ _ _ Hm). cbn [guarded trace].
      repeat (constructor; [cbn; auto |]). constructor.
  - intros -> Hm. rewrite (fanOut_empty _ _ _ Hm). reflexivity.
Qed.

(** C2 (the code departs from it). Whatever gateway the extraction put in a
    record, the topic [sendToMqtt] publishes it under is "beacon/undefined":
    the topic reads [gatewayMac], which the extraction never sets, while the
    message carries the [gateway] field. *)
Theorem mqtt_topic_ignores_gateway (beacon : value) (item : obj)
    (w : world) (s : state) :
  extractBeaconData StringToNumber toUpperCase beacon = Ok item ->
  exists message,
    trace (publishItem item w s) = [MqttPublish "beacon/undefined" message]
    /\ field message "gateway" = prop item "gateway".
Proof.
  intros H. unfold publishItem, bind, getCurrentDateTime, emit.
  cbn [prefix trace app]. rewrite (extracted_gatewayMac _ _ _ _ H).
  eexists. split; reflexivity.
Qed.

(** C3 (the code departs from it). No invocation broadcasts anything: its
    run contains no [io.emit].  All it does for the subscribers is to leave
    at most one more ['connection'] listener behind, which emits the batch
    when a subscriber connects later. *)
Theorem no_broadcast_during_invocation (w : world) (s : state) :
  Forall (fun e => isEmit e = false) (trace (fetchDataAndSend StringToNumber toUpperCase w s))
  /\ exists late,
      connection (after (fetchDataAndSend StringToNumber toUpperCase w s))
      = (connection s ++ late)%list
      /\ (late = [] \/ exists batch, late = [IoEmit "beaconData" batch]).
Proof.
  assert (Hquiet : forall lines,
             Forall (fun e => isSink e = false) lines ->
             Forall (fun e => isEmit e = false) lines).
  { intros lines. apply Forall_impl. intros []; cbn; congruence. }
  assert (Hpubs : forall pubs,
             Forall (fun e => isPublish e = true) pubs ->
             Forall (fun e => isEmit e = false) pubs).
  { intros pubs. apply Forall_impl. intros []; cbn; congruence. }
  assert (Hans : forall bodies, Forall (fun e => isEmit e = false) (answered bodies)).
  { intros bodies. generalize (answered_isAppend bodies).
    apply Forall_impl. intros []; cbn; congruence. }
  unfold connection.
  destruct (fetch_trace StringToNumber toUpperCase w s)
    as [(lines & -> & Hl & ->)
       | [(items & lines & _ & _ & -> & Hl & ->)
         | (items & mq & bodies & tail & sub & lines & -> & Hmq & _ & Hl
            & Hcase)]].
  - split; [constructor; [reflexivity | auto] |].
    exists []. rewrite app_nil_r. auto.
  - split; [cbn [app]; repeat (constructor; [reflexivity |]); auto |].
    exists []. rewrite app_nil_r. auto.
  - split.
    + do 2 (constructor; [reflexivity |]).
      assert (Hq : Forall (fun e => isEmit e = false) mq).
      { destruct Hmq as [(_ & pubs & -> & Hp & _) | (_ & ->)].
        - constructor; [reflexivity |]. apply Forall_app.
          split; [auto | repeat (constructor; [reflexivity |]); constructor].
        - repeat (constructor; [reflexivity |]). constructor. }
      destruct Hcase as [(-> & -> & _) | (-> & (b & ->) & _)];
        repeat (apply Forall_app; split); auto;
        repeat (constructor; [reflexivity |]); constructor.
    + destruct Hcase as [(_ & _ & _ & ->) | (_ & _ & ->)].
      * rewrite map_app. eexists. split; [reflexivity |]. right. eexists.
        reflexivity.
      * exists []. rewrite app_nil_r. auto.
Qed.

(** C4. For a well-formed response with N beacon entries the Collector
    produces exactly N records, the record of each entry carrying as its
    beacon identifier the single key of the entry in upper case; this batch
    is the one the invocation goes on with. *)
Theorem collector_one_record_per_entry (w : world) (s : state)
    (response : value) (beacons : list value) :
  getPosition w = Fulfilled response ->
  beaconsAt (field response "data") = Some beacons ->
  Forall (fun entry => wellFormedEntry entry = true) beacons ->
  exists records,
    extractAll StringToNumber toUpperCase beacons = Ok records
    /\ List.length records = List.length beacons
    /\ Forall2
         (fun entry record =>
            assoc "beacon" record = Some (VStr (toUpperCase (entryKey entry))))
         beacons records
    /\ In (batchLine records) (trace (fetchDataAndSend StringToNumber toUpperCase w s)).
Proof.
  intros Hg Hb Hwf.
  destruct (extractAll_wellFormed StringToNumber toUpperCase beacons Hwf) as (records & Hr & Hf).
  exists records. split; [exact Hr |].
  split; [symmetry; exact (Forall2_length Hf) |]. split; [exact Hf |].
  rewrite (fetch_wellformed _ _ _ s _ _ Hg Hb), Hr.
  destruct (guarded_trace (fanOut records beacons w s)) as (lines & -> & _).
  destruct (fanOut_head records beacons w s) as (rest & ->).
  right. left. reflexivity.
Qed.

(** C6. When the body of the response has no array at [data.beacons], the
    invocation does nothing but write one line to the error log: no record
    is extracted or logged, no sink is touched, the state is unchanged and
    the invocation ends without an exception. *)
Theorem malformed_response_yields_nothing (w : world) (s : state)
    (response : value) :
  getPosition w = Fulfilled response ->
  beaconsAt (field response "data") = None ->
  exists text detail,
    fetchDataAndSend StringToNumber toUpperCase w s
    = Run [AxiosGet getPositionUrl; ConsoleError text detail] s (Fulfilled tt).
Proof.
  intros Hg Hb.
  destruct (fetch_malformed StringToNumber toUpperCase w s response Hg Hb)
    as (line & -> & [-> | ->]); do 2 eexists; reflexivity.
Qed.

(** C7 (as amended). For an entry whose nested object has no [dynamb] key,
    the record has no [temperature] and no [uptime], and its beacon
    identifier, gateway, coordinates, location label and both thresholds
    are set from the entry. *)
Theorem no_telemetry_record (beacon : value) (k : string) (ks : list string) :
  Object_keys beacon = Ok (k :: ks) ->
  nullish (field (field beacon k) "nearestGatewayData") = false ->
  nullish (field (field beacon k) "location") = false ->
  hasProperty "dynamb" (field beacon k) = Ok false ->
  exists record,
    extractBeaconData StringToNumber toUpperCase beacon = Ok record
    /\ assoc "temperature" record = None
    /\ assoc "uptime" record = None
    /\ assoc "beacon" record = Some (VStr (toUpperCase k))
    /\ assoc "gateway" record
       = Some (field (field (field beacon k) "nearestGatewayData") "device")
    /\ assoc "latitude" record
       = Some (field (field (field beacon k) "location") "latitude")
    /\ assoc "longitude" record
       = Some (field (field (field beacon k) "location") "longitude")
    /\ assoc "sapLocation" record
       = Some (field (field (field beacon k) "location") "sapLocation")
    /\ assoc "tempCondition_Low" record
       = Some (field (field (field beacon k) "location") "tempCondition_Low")
    /\ assoc "tempCondition_High" record
       = Some (field (field (field beacon k) "location") "tempCondition_High").
Proof.
  intros Hk Hg Hl Hd.
  destruct (Object_keys_ok _ _ Hk) as (Hb & _).
  pose proof (hasProperty_object _ _ _ Hd) as Hn.
  unfold extractBeaconData. rewrite Hk. cbn [rbind hd_error].
  rewrite (getProp_ok _ _ Hb). cbn [rbind].
  rewrite !(path2_ok _ _ _ Hn Hg), !(path2_ok _ _ _ Hn Hl). cbn [rbind].
  rewrite Hd. cbn [rbind]. eexists. split; [reflexivity |].
  repeat split; reflexivity.
Qed.

Lemma posted_in_order (items : list obj) (w : world) (s : state) (i : nat)
    (body : value) :
  nth_error (postedBodies (trace (forEach appendItem items w s))) i = Some body ->
  exists item,
    nth_error items i = Some item
    /\ field body "events"
       = eventList (formatted (isoTime w (clockReads s + i)))
           (or_else (prop item "temperature") (VNum (Int 0))).
Proof.
  revert s i. induction items as [|x l IH]; intros s i H.
  - destruct i; discriminate.
  - destruct (appendItem_run x w s) as (b0 & Hb0 & Hx).
    assert (E : forEach appendItem (x :: l) w s
                = bind (appendItem x) (fun _ => forEach appendItem l) w s)
      by reflexivity.
    rewrite E in H. clear E. unfold bind in H. rewrite Hx in H.
    assert (Hfirst : field b0 "events"
                     = eventList (formatted (isoTime w (clockReads s + 0)))
                         (or_else (prop x "temperature") (VNum (Int 0)))).
    { rewrite Hb0, Nat.add_0_r. reflexivity. }
    destruct (addTemp w (postsSent s)) as [r | e |].
    + rewrite trace_prefix in H. cbn [app postedBodies flat_map] in H.
      destruct i as [|i]; cbn [nth_error] in H.
      * injection H as <-. exists x. split; [reflexivity | exact Hfirst].
      * apply IH in H. destruct H as (item & Hi & Hev). exists item.
        split; [exact Hi |]. cbn [clockReads] in Hev.
        now replace (clockReads s + S i) with (S (clockReads s) + i) by lia.
    + cbn in H. destruct i as [|[|i]]; try discriminate.
      injection H as <-. exists x. split; [reflexivity | exact Hfirst].
    + cbn in H. destruct i as [|[|i]]; try discriminate.
      injection H as <-. exists x. split; [reflexivity | exact Hfirst].
Qed.

Lemma posted_reached (items : list obj) (w : world) (s : state) (i : nat)
    (item : obj) :
  nth_error items i = Some item ->
  (forall k, k < i -> exists r, addTemp w (postsSent s + k) = Fulfilled r) ->
  exists body,
    nth_error (postedBodies (trace (forEach appendItem items w s))) i = Some body.
Proof.
  revert s i. induction items as [|x l IH]; intros s i Hi Hok.
  - destruct i; discriminate.
  - destruct (appendItem_run x w s) as (b0 & _ & Hx).
    assert (E : forEach appendItem (x :: l) w s
                = bind (appendItem x) (fun _ => forEach appendItem l) w s)
      by reflexivity.
    rewrite E. clear E. unfold bind. rewrite Hx.
    destruct i as [|i].
    + destruct (addTemp w (postsSent s)); [rewrite trace_prefix |..];
        eexists; reflexivity.
    + destruct (Hok 0) as (r0 & Hr0); [lia |].
      rewrite Nat.add_0_r in Hr0. rewrite Hr0, trace_prefix.
      cbn [app postedBodies flat_map nth_error]. cbn [nth_error] in Hi.
      apply (IH _ i Hi). intros k Hk. cbn [postsSent].
      destruct (Hok (S k)) as (r & Hr); [lia |]. exists r.
      now replace (S (postsSent s) + k) with (postsSent s + S k) by lia.
Qed.

(** C8. The POSTs of [sendToMongoDB] follow the batch: the i-th POST
    issued is the one of the i-th record, and its body carries a
    one-element event list made of the formatted time of that POST's clock
    reading and the record's temperature or zero.  That temperature is
    never [undefined], and it is zero for a record without a reported
    temperature.  The POST of a record is issued as soon as the POSTs of
    the records before it were answered. *)
Theorem append_payload_single_event (items : list obj) (l : list value)
    (w : world) (s : state) :
  (forall i body,
      nth_error (postedBodies (trace (sendToMongoDB items l w s))) i = Some body ->
      exists item,
        nth_error items i = Some item
        /\ field body "events"
           = eventList (formatted (isoTime w (clockReads s + i)))
               (or_else (prop item "temperature") (VNum (Int 0)))
        /\ or_else (prop item "temperature") (VNum (Int 0)) <> VUndefined
        /\ (nullish (prop item "temperature") = true ->
            field body "events"
            = eventList (formatted (isoTime w (clockReads s + i))) (VNum (Int 0))))
  /\ (forall i item,
        nth_error items i = Some item ->
        (forall k, k < i -> exists r, addTemp w (postsSent s + k) = Fulfilled r) ->
        exists body,
          nth_error (postedBodies (trace (sendToMongoDB items l w s))) i
          = Some body).
Proof.
  unfold sendToMongoDB. split.
  - intros i body H. destruct (posted_in_order items w s i body H)
      as (item & Hi & Hev).
    exists item. split; [exact Hi |]. split; [exact Hev |].
    split; [apply or_else_defined |].
    intros Hn. now rewrite Hev, (or_else_nullish _ Hn).
  - intros i item Hi Hok. now apply (posted_reached items w s i item).
Qed.



End Statements.

(** ** The statements on the sample data *)

Import Sample.

Example extract_withTelemetry :
  extractBeaconData stringToNumber upperCase withTelemetry = Ok recordWithTelemetry.
Proof. reflexivity. Qed.

Example extract_withoutTelemetry :
  extractBeaconData stringToNumber upperCase withoutTelemetry = Ok recordWithoutTelemetry.
Proof. reflexivity. Qed.

Example getCurrentDateTime_sample :
  outcome (getCurrentDateTime pairWorld fresh) = Fulfilled "2023-05-01 10:11:12".
Proof. reflexivity. Qed.

(** A whole run with two records: one MQTT session, then the two appends
    one after the other, then the registration. *)
Example pair_run :
  exists m1 m2 b1 b2,
    trace (fetchDataAndSend stringToNumber upperCase pairWorld fresh)
    = [ AxiosGet getPositionUrl;
        batchLine [recordWithTelemetry; recordWithoutTelemetry];
        connectCall pairWorld;
        MqttPublish "beacon/undefined" m1; MqttPublish "beacon/undefined" m2;
        MqttEnd; MqttClose;
        AxiosPost addTempUrl b1; AxiosPostFulfilled;
        AxiosPost addTempUrl b2; AxiosPostFulfilled;
        IoOn "connection" ].
Proof. do 4 eexists. reflexivity. Qed.

(** The first append is rejected: the loop stops there, the error is
    logged and no listener is registered. *)
Example rejected_append_run :
  exists m1 m2 b1,
    fetchDataAndSend stringToNumber upperCase
      (worldFailingAt 0 (bodyOf [withTelemetry; withoutTelemetry])) fresh
    = Run [ AxiosGet getPositionUrl;
            batchLine [recordWithTelemetry; recordWithoutTelemetry];
            connectCall pairWorld;
            MqttPublish "beacon/undefined" m1; MqttPublish "beacon/undefined" m2;
            MqttEnd; MqttClose;
            AxiosPost addTempUrl b1;
            caughtLine (Failure "ECONNRESET") ]
        {| clockReads := 3; postsSent := 0; listeners := [];
           openClients := [] |}
        (Fulfilled tt).
Proof. do 3 eexists. reflexivity. Qed.

(** C1 as the specification states it, refuted: the response has zero
    beacon entries and the run still opens the MQTT connection. *)
Lemma zero_beacons_no_connection_refuted :
  beaconsAt (field (responseOf (bodyOf [])) "data") = Some []
  /\ ~ Forall (fun e => isConnect e = false)
        (trace (fetchDataAndSend stringToNumber upperCase (worldOf (bodyOf []) Accepts) fresh)).
Proof.
  split; [reflexivity |]. intros H. rewrite Forall_forall in H.
  specialize (H (connectCall (worldOf (bodyOf []) Accepts))).
  cbn [isConnect connectCall] in H. 
  assert (Hin : In (connectCall (worldOf (bodyOf []) Accepts))
                  (trace (fetchDataAndSend stringToNumber upperCase
                            (worldOf (bodyOf []) Accepts) fresh))).
  { right. right. left. reflexivity. }
  specialize (H Hin). discriminate H.
Qed.

Lemma fanout_runs_for_every_batch_witness :
  getPosition pairWorld = Fulfilled (responseOf (bodyOf Cases.pair))
  /\ beaconsAt (field (responseOf (bodyOf Cases.pair)) "data") = Some Cases.pair
  /\ extractAll stringToNumber upperCase Cases.pair = Ok Cases.pairRecords
  /\ exists pubs rest,
      trace (fetchDataAndSend stringToNumber upperCase pairWorld fresh)
      = (AxiosGet getPositionUrl :: batchLine Cases.pairRecords
           :: connectCall pairWorld :: pubs ++ MqttEnd :: MqttClose :: rest)%list
      /\ Forall (fun e => isPublish e = true) pubs
      /\ List.length pubs = List.length Cases.pairRecords.
Proof.
  split; [reflexivity |]. split; [reflexivity |]. split; [reflexivity |].
  exact (proj1 (proj2 (fanout_runs_for_every_batch stringToNumber upperCase
                         pairWorld fresh (responseOf (bodyOf Cases.pair))
                         Cases.pair Cases.pairRecords eq_refl eq_refl eq_refl))
           eq_refl).
Defined.

Lemma mqtt_topic_ignores_gateway_witness :
  extractBeaconData stringToNumber upperCase withTelemetry = Ok recordWithTelemetry
  /\ prop recordWithTelemetry "gateway" = VStr "gw1"
  /\ exists message,
      trace (publishItem recordWithTelemetry pairWorld fresh)
      = [MqttPublish "beacon/undefined" message]
      /\ field message "gateway" = VStr "gw1".
Proof.
  split; [reflexivity |]. split; [reflexivity |].
  exact (mqtt_topic_ignores_gateway stringToNumber upperCase withTelemetry
           recordWithTelemetry pairWorld fresh eq_refl).
Defined.

(** Two invocations, then a subscriber connects: nothing was emitted during
    the invocations, and the connection makes both listeners emit, the
    first one the batch of the earlier invocation. *)
Example listeners_accumulate :
  let first := fetchDataAndSend stringToNumber upperCase pairWorld fresh in
  let second := fetchDataAndSend stringToNumber upperCase emptyWorld (after first) in
  existsb isEmit (trace first ++ trace second) = false
  /\ connection (after second)
     = [ IoEmit "beaconData" (VArr [VObj recordWithTelemetry; VObj recordWithoutTelemetry]);
         IoEmit "beaconData" (VArr []) ].
Proof. split; reflexivity. Qed.

Lemma collector_one_record_per_entry_witness :
  getPosition pairWorld = Fulfilled (responseOf (bodyOf [withTelemetry; withoutTelemetry]))
  /\ Forall (fun entry => wellFormedEntry entry = true) [withTelemetry; withoutTelemetry]
  /\ exists records,
      extractAll stringToNumber upperCase [withTelemetry; withoutTelemetry] = Ok records
      /\ List.length records = 2
      /\ Forall2
           (fun entry record =>
              assoc "beacon" record = Some (VStr (upperCase (entryKey entry))))
           [withTelemetry; withoutTelemetry] records
      /\ In (batchLine records) (trace (fetchDataAndSend stringToNumber upperCase pairWorld fresh)).
Proof.
  split; [reflexivity |].
  split; [repeat constructor |].
  apply (collector_one_record_per_entry stringToNumber upperCase pairWorld fresh
           (responseOf (bodyOf [withTelemetry; withoutTelemetry]))
           [withTelemetry; withoutTelemetry]);
    [reflexivity | reflexivity | repeat constructor].
Defined.

Lemma malformed_response_yields_nothing_witness :
  beaconsAt (field (responseOf bodyWithoutArray) "data") = None
  /\ exists text detail,
      fetchDataAndSend stringToNumber upperCase (worldOf bodyWithoutArray Accepts) fresh
      = Run [AxiosGet getPositionUrl; ConsoleError text detail] fresh (Fulfilled tt).
Proof.
  split; [reflexivity |].
  exact (malformed_response_yields_nothing stringToNumber upperCase
           (worldOf bodyWithoutArray Accepts) fresh (responseOf bodyWithoutArray)
           eq_refl eq_refl).
Defined.

Lemma no_telemetry_record_witness :
  hasProperty "dynamb" (field withoutTelemetry "bb07") = Ok false
  /\ exists record,
      extractBeaconData stringToNumber upperCase withoutTelemetry = Ok record
      /\ assoc "temperature" record = None
      /\ assoc "uptime" record = None
      /\ assoc "beacon" record = Some (VStr "BB07")
      /\ assoc "gateway" record = Some (VStr "gw2")
      /\ assoc "latitude" record = Some (VNum (Int 47))
      /\ assoc "longitude" record = Some (VNum (Int 8))
      /\ assoc "sapLocation" record = Some (VStr "A1")
      /\ assoc "tempCondition_Low" record = Some (VNum (Int 2))
      /\ assoc "tempCondition_High" record = Some (VNum (Int 8)).
Proof.
  split; [reflexivity |].
  exact (no_telemetry_record stringToNumber upperCase withoutTelemetry "bb07" []
           eq_refl eq_refl eq_refl eq_refl).
Defined.

(** C7 as the specification states it, refuted: an entry whose [dynamb] is
    a number has no telemetry object, and its record carries a temperature
    property and an uptime text all the same; an entry whose [dynamb] is
    [null] has none either, and yields no record at all. *)
Lemma no_telemetry_object_refuted :
  isObject (Some (field (field Cases.numericTelemetry "aa12") "dynamb")) = false
  /\ (exists record,
        extractBeaconData stringToNumber upperCase Cases.numericTelemetry = Ok record
        /\ assoc "temperature" record = Some VUndefined
        /\ assoc "uptime" record
           = Some (VStr "NaN Tage, NaN Stunden, NaN Minuten, NaN Sekunden"))
  /\ isObject (Some (field (field Cases.nullTelemetry "ee10") "dynamb")) = false
  /\ extractBeaconData stringToNumber upperCase Cases.nullTelemetry = Throw TypeError.
Proof.
  split; [reflexivity |].
  split; [eexists; split; [reflexivity | split; reflexivity] |].
  split; reflexivity.
Qed.

Lemma append_payload_single_event_witness :
  nth_error Cases.pairRecords 1 = Some recordWithoutTelemetry
  /\ nullish (prop recordWithoutTelemetry "temperature") = true
  /\ exists body,
      nth_error
        (postedBodies (trace (sendToMongoDB Cases.pairRecords Cases.pair pairWorld fresh)))
        1 = Some body
      /\ field body "events" = eventList "2023-05-01 10:11:12" (VNum (Int 0)).
Proof.
  split; [reflexivity |]. split; [reflexivity |].
  destruct (append_payload_single_event Cases.pairRecords Cases.pair pairWorld fresh)
    as (Hsent & Hreached).
  destruct (Hreached 1 recordWithoutTelemetry eq_refl
              (fun k _ => ex_intro _ (VObj [ ("status", VNum (Int 200)) ]) eq_refl))
    as (body & Hbody).
  exists body. split; [exact Hbody |].
  destruct (Hsent 1 body Hbody) as (item & Hitem & _ & _ & Hzero).
  injection Hitem as <-. exact (Hzero eq_refl).
Defined.



(** ** Further properties of the relay *)

Section UptimeParts.

(** X1. For a whole number of seconds from 0 to 2^53 - 1 the four numbers
    [formatUptime] prints are a lossless, normalised decomposition: hours
    below 24, minutes and seconds below 60, and days, hours, minutes and
    seconds add up to the input again. *)
Theorem formatUptime_lossless (s : Z) :
  (0 <= s <= maxSafe)%Z ->
  exists D H M S : Z,
    formatUptime (Int s)
    = string_of_Z D ++ " Tage, " ++ string_of_Z H ++ " Stunden, "
        ++ string_of_Z M ++ " Minuten, " ++ string_of_Z S ++ " Sekunden"
    /\ (0 <= D)%Z /\ (0 <= H < 24)%Z /\ (0 <= M < 60)%Z /\ (0 <= S < 60)%Z
    /\ (D * 86400 + H * 3600 + M * 60 + S = s)%Z.
Proof.
  intros Hs.
  exists (s / 86400)%Z, ((s mod 86400) / 3600)%Z, ((s mod 3600) / 60)%Z,
    (s mod 60)%Z.
  split; [rewrite formatUptime_refines by assumption; reflexivity |].
  assert (E1 : ((s mod 86400) mod 3600 = s mod 3600)%Z)
    by (apply Z.mod_mod_divide; exists 24%Z; reflexivity).
  assert (E2 : ((s mod 3600) mod 60 = s mod 60)%Z)
    by (apply Z.mod_mod_divide; exists 60%Z; reflexivity).
  pose proof (Z.div_mod s 86400 ltac:(lia)).
  pose proof (Z.div_mod (s mod 86400) 3600 ltac:(lia)).
  pose proof (Z.div_mod (s mod 3600) 60 ltac:(lia)).
  pose proof (Z.mod_pos_bound s 86400 ltac:(lia)).
  pose proof (Z.mod_pos_bound s 3600 ltac:(lia)).
  pose proof (Z.mod_pos_bound s 60 ltac:(lia)).
  rewrite E1, E2 in *. repeat split; lia.
Qed.

Lemma formatUptime_lossless_witness :
  (0 <= 200000 <= maxSafe)%Z
  /\ exists D H M S : Z,
      formatUptime (Int 200000)
      = string_of_Z D ++ " Tage, " ++ string_of_Z H ++ " Stunden, "
          ++ string_of_Z M ++ " Minuten, " ++ string_of_Z S ++ " Sekunden"
      /\ (0 <= D)%Z /\ (0 <= H < 24)%Z /\ (0 <= M < 60)%Z /\ (0 <= S < 60)%Z
      /\ (D * 86400 + H * 3600 + M * 60 + S = 200000)%Z.
Proof.
  assert (H : (0 <= 200000 <= maxSafe)%Z) by (unfold maxSafe; lia).
  split; [exact H | exact (formatUptime_lossless 200000 H)].
Defined.

End UptimeParts.

Section RecordsMore.

Variable StringToNumber : string -> num.
Variable toUpperCase : string -> string.

Lemma hasProperty_exn (k : string) (v : value) (e : exn) :
  hasProperty k v = Throw e -> e = TypeError.
Proof. destruct v; cbn; congruence. Qed.

Lemma Object_keys_exn (v : value) (e : exn) :
  Object_keys v = Throw e -> e = TypeError.
Proof. unfold Object_keys. destruct (nullish v); congruence. Qed.

Lemma getProp_exn (v : value) (k : string) (e : exn) :
  getProp v k = Throw e -> e = TypeError.
Proof. unfold getProp. destruct (nullish v); congruence. Qed.

(** X2. When the nested object of an entry has a [dynamb] object, the
    record carries, after the seven copied fields, the temperature as it
    stands in [dynamb] and the uptime text of [dynamb.uptime]: for a
    whole number from 0 to 2^53 - 1 the day/hour/minute/second text, and
    for a [dynamb] without [uptime] the text made of NaN. *)
Theorem telemetry_record (beacon : value) (k : string) (ks : list string) :
  Object_keys beacon = Ok (k :: ks) ->
  nullish (field (field beacon k) "nearestGatewayData") = false ->
  nullish (field (field beacon k) "location") = false ->
  hasProperty "dynamb" (field beacon k) = Ok true ->
  nullish (field (field beacon k) "dynamb") = false ->
  exists record,
    extractBeaconData StringToNumber toUpperCase beacon = Ok record
    /\ map fst record = (baseNames ++ telemetryNames)%list
    /\ assoc "beacon" record = Some (VStr (toUpperCase k))
    /\ assoc "temperature" record
       = Some (field (field (field beacon k) "dynamb") "temperature")
    /\ assoc "uptime" record
       = Some (VStr (formatUptime
                       (ToNumber StringToNumber
                          (field (field (field beacon k) "dynamb") "uptime"))))
    /\ (forall u : Z,
          (0 <= u <= maxSafe)%Z ->
          field (field (field beacon k) "dynamb") "uptime" = VNum (Int u) ->
          assoc "uptime" record = Some (VStr (Spec.uptime_text u)))
    /\ (field (field (field beacon k) "dynamb") "uptime" = VUndefined ->
        assoc "uptime" record
        = Some (VStr "NaN Tage, NaN Stunden, NaN Minuten, NaN Sekunden")).
Proof.
  intros Hk Hg Hl Hd Hdn.
  destruct (Object_keys_ok _ _ Hk) as (Hb & _).
  pose proof (hasProperty_object _ _ _ Hd) as Hn.
  unfold extractBeaconData. rewrite Hk. cbn [rbind hd_error].
  rewrite (getProp_ok _ _ Hb). cbn [rbind].
  rewrite !(path2_ok _ _ _ Hn Hg), !(path2_ok _ _ _ Hn Hl). cbn [rbind].
  rewrite Hd. cbn [rbind]. rewrite !(path2_ok _ _ _ Hn Hdn). cbn [rbind].
  eexists. split; [reflexivity |].
  split; [reflexivity |]. split; [reflexivity |]. split; [reflexivity |].
  split; [reflexivity |]. split.
  - intros u Hu ->. cbn [assoc String.eqb Ascii.eqb Bool.eqb app ToNumber].
    now rewrite formatUptime_refines.
  - intros ->. reflexivity.
Qed.

(** X3. A [dynamb] key that is present but bound to [null] makes the
    extraction throw a TypeError: the entry is not treated as one without
    telemetry. *)
Theorem null_telemetry_throws (beacon : value) (k : string) (ks : list string) :
  Object_keys beacon = Ok (k :: ks) ->
  hasProperty "dynamb" (field beacon k) = Ok true ->
  nullish (field (field beacon k) "dynamb") = true ->
  extractBeaconData StringToNumber toUpperCase beacon = Throw TypeError.
Proof.
  intros Hk Hd Hdn.
  destruct (Object_keys_ok _ _ Hk) as (Hb & _).
  unfold extractBeaconData. rewrite Hk. cbn [rbind hd_error].
  rewrite (getProp_ok _ _ Hb). cbn [rbind].
  repeat match goal with
         | |- rbind (path2 ?v ?a ?b) _ = _ =>
             let E := fresh "E" in
             destruct (path2 v a b) eqn:E; cbn [rbind];
             [| now rewrite (path2_exn _ _ _ _ E)]
         end.
  rewrite Hd. cbn [rbind]. now rewrite (path2_throw _ _ _ Hdn).
Qed.

(** X4. Every record the extraction returns has the seven copied
    properties in a fixed order, followed by both [temperature] and
    [uptime] or by neither; its beacon identifier is the upper-case text of
    the first key of the entry, and its uptime, when present, is a text. *)
Theorem record_invariant (beacon : value) (item : obj) :
  extractBeaconData StringToNumber toUpperCase beacon = Ok item ->
  (map fst item = baseNames \/ map fst item = (baseNames ++ telemetryNames)%list)
  /\ (exists k ks,
        Object_keys beacon = Ok (k :: ks)
        /\ assoc "beacon" item = Some (VStr (toUpperCase k)))
  /\ (forall u, assoc "uptime" item = Some u -> exists text, u = VStr text)
  /\ (assoc "temperature" item = None <-> assoc "uptime" item = None).
Proof.
  unfold extractBeaconData. intros H.
  destruct (Object_keys beacon) as [keys |] eqn:Hk; cbn [rbind] in H;
    [| discriminate].
  destruct (getProp beacon _) as [beaconData |]; cbn [rbind] in H;
    [| discriminate].
  destruct keys as [|k ks]; cbn [hd_error rbind] in H; [discriminate |].
  repeat match type of H with
         | rbind (path2 ?v ?a ?b) _ = _ =>
             destruct (path2 v a b); cbn [rbind] in H; [| discriminate]
         end.
  destruct (hasProperty "dynamb" beaconData) as [[] |]; cbn [rbind] in H;
    [| | discriminate].
  - repeat match type of H with
           | rbind (path2 ?v ?a ?b) _ = _ =>
               destruct (path2 v a b); cbn [rbind] in H; [| discriminate]
           end.
    injection H as <-. split; [right; reflexivity |].
    split; [exists k, ks; split; reflexivity |].
    split.
    + intros u Hu. cbn in Hu. injection Hu as <-. eauto.
    + split; discriminate.
  - injection H as <-. split; [left; reflexivity |].
    split; [exists k, ks; split; reflexivity |].
    split; [discriminate | split; reflexivity].
Qed.

(** X5. The extraction fails with a TypeError and nothing else, and the
    batch is all or nothing: [extractAll] returns the records exactly when
    every entry extracts, one record per entry in the order of the entries,
    and otherwise throws the TypeError of an entry that does not
    extract. *)
Theorem extractAll_all_or_nothing (beacons : list value) :
  (forall records,
      extractAll StringToNumber toUpperCase beacons = Ok records
      <-> Forall2 (fun entry record =>
                     extractBeaconData StringToNumber toUpperCase entry = Ok record)
            beacons records)
  /\ (forall e,
        extractAll StringToNumber toUpperCase beacons = Throw e ->
        e = TypeError
        /\ exists bad,
            In bad beacons
            /\ extractBeaconData StringToNumber toUpperCase bad = Throw TypeError).
Proof.
  assert (Hexn : forall entry e,
             extractBeaconData StringToNumber toUpperCase entry = Throw e -> e = TypeError).
  { intros entry e. unfold extractBeaconData. intros H.
    destruct (Object_keys entry) as [keys |] eqn:Hk; cbn [rbind] in H;
      [| injection H as <-; apply (Object_keys_exn _ _ Hk)].
    destruct (getProp entry _) as [beaconData |] eqn:Hp; cbn [rbind] in H;
      [| injection H as <-; apply (getProp_exn _ _ _ Hp)].
    destruct (hd_error keys) as [k |]; cbn [rbind] in H; [| congruence].
    repeat match type of H with
           | rbind (path2 ?v ?a ?b) _ = _ =>
               let E := fresh "E" in
               destruct (path2 v a b) eqn:E; cbn [rbind] in H;
               [| injection H as <-; apply (path2_exn _ _ _ _ E)]
           end.
    destruct (hasProperty "dynamb" beaconData) as [[] |] eqn:Hh;
      cbn [rbind] in H;
      [| discriminate | injection H as <-; apply (hasProperty_exn _ _ _ Hh)].
    repeat match type of H with
           | rbind (path2 ?v ?a ?b) _ = _ =>
               let E := fresh "E" in
               destruct (path2 v a b) eqn:E; cbn [rbind] in H;
               [| injection H as <-; apply (path2_exn _ _ _ _ E)]
           end.
    discriminate. }
  induction beacons as [|x l [IHok IHthrow]].
  - split.
    + intros records. cbn. split.
      * intros H. injection H as <-. constructor.
      * intros H. inversion H. reflexivity.
    + intros e H. discriminate.
  - split.
    + intros records. cbn [extractAll]. split.
      * intros H.
        destruct (extractBeaconData StringToNumber toUpperCase x) as [r |] eqn:Hx;
          cbn [rbind] in H; [| discriminate].
        destruct (extractAll StringToNumber toUpperCase l) as [rs |] eqn:Hl;
          cbn [rbind] in H; [| discriminate].
        injection H as <-. constructor; [exact Hx | now apply IHok].
      * intros H. inversion H as [| ? r ? rs Hx Hrest]; subst.
        rewrite Hx. cbn [rbind]. apply IHok in Hrest. rewrite Hrest.
        reflexivity.
    + intros e H. cbn [extractAll] in H.
      destruct (extractBeaconData StringToNumber toUpperCase x) as [r |] eqn:Hx;
        cbn [rbind] in H.
      * destruct (extractAll StringToNumber toUpperCase l) as [rs |] eqn:Hl;
          cbn [rbind] in H; [discriminate |].
        injection H as <-. destruct (IHthrow _ eq_refl) as (-> & bad & Hin & Hb).
        split; [reflexivity |]. exists bad. split; [now right | exact Hb].
      * injection H as <-. pose proof (Hexn _ _ Hx) as ->.
        split; [reflexivity |]. exists x. split; [now left | exact Hx].
Qed.

(** X6. An entry that is not an object ([null], a boolean, a number or a
    text) never yields a record: the extraction throws a TypeError. *)
Theorem primitive_entry_throws (entry : value) :
  isPrimitive entry = true ->
  extractBeaconData StringToNumber toUpperCase entry = Throw TypeError.
Proof.
  destruct entry as [| | b | n | t | |]; try discriminate; intros _;
    try reflexivity.
  destruct t as [|c t]; [reflexivity |].
  unfold extractBeaconData, Object_keys. cbn [nullish ownProps String.length].
  unfold indexNames. cbn [seq map chars list_ascii_of_string combine fst rbind
                            hd_error].
  reflexivity.
Qed.

End RecordsMore.

Section ClockText.

Lemma length_app (a b : string) :
  String.length (a ++ b) = String.length a + String.length b.
Proof. induction a as [|c a IH]; cbn; [reflexivity | now rewrite IH]. Qed.

Lemma app_assoc_text (a b c : string) : (a ++ b) ++ c = a ++ b ++ c.
Proof. induction a as [|x a IH]; cbn; [reflexivity | now rewrite IH]. Qed.

Lemma substring_front (a b : string) :
  substring 0 (String.length a) (a ++ b) = a.
Proof.
  induction a as [|c a IH]; cbn; [destruct b; reflexivity | now rewrite IH].
Qed.

Lemma substring_back (a b : string) (n : nat) :
  substring (String.length a) n (a ++ b) = substring 0 n b.
Proof. induction a as [|c a IH]; cbn; [reflexivity | exact IH]. Qed.

Lemma substring_whole (b : string) : substring 0 (String.length b) b = b.
Proof. induction b as [|c b IH]; cbn; [reflexivity | now rewrite IH]. Qed.

Lemma index_first (c : ascii) (a b : string) :
  occurs c a = false ->
  index 0 (String c EmptyString) (a ++ String c b) = Some (String.length a).
Proof.
  induction a as [|x a IH]; intros H.
  - cbn. destruct (ascii_dec c c) as [_ | N]; [| congruence].
    destruct b; reflexivity.
  - cbn in H. apply orb_false_iff in H as [Hx Ha].
    cbn [append index String.prefix].
    destruct (ascii_dec c x) as [-> | _].
    + now rewrite Ascii.eqb_refl in Hx.
    + change (index 0 (String c "") (a ++ String c b)) with
        (index 0 (String c "") (a ++ String c b)).
      rewrite (IH Ha). reflexivity.
Qed.

Lemma substring_after (a b : string) (c : ascii) (n : nat) :
  substring (String.length a + 1) n (a ++ String c b) = substring 0 n b.
Proof. induction a as [|x a IH]; cbn; [reflexivity | exact IH]. Qed.

Lemma replace_first (c d : ascii) (a b : string) :
  occurs c a = false ->
  replace (String c "") (String d "") (a ++ String c b) = a ++ String d b.
Proof.
  intros H. unfold replace. rewrite (index_first c a b H).
  rewrite substring_front. cbn [String.length]. rewrite substring_after.
  rewrite length_app. cbn [String.length].
  replace (String.length a + S (String.length b) - (String.length a + 1))
    with (String.length b) by lia.
  now rewrite substring_whole.
Qed.

Lemma slice_last (a : string) (z : ascii) : slice_0_m1 (a ++ String z "") = a.
Proof.
  unfold slice_0_m1. rewrite length_app. cbn [String.length].
  replace (String.length a + 1 - 1) with (String.length a) by lia.
  apply substring_front.
Qed.

(** X7. For a clock text of the ISO form, a ten-character date, "T", an
    eight-character time and a fraction with its final letter,
    [getCurrentDateTime] returns the date, a blank and the time; it reads
    the clock once and does nothing else. *)
Theorem getCurrentDateTime_local_text (w : world) (s : state)
    (date time frac : string) (z : ascii) :
  isoTime w (clockReads s) = date ++ "T" ++ time ++ frac ++ String z "" ->
  String.length date = 10 ->
  String.length time = 8 ->
  occurs "T" date = false ->
  getCurrentDateTime w s
  = Run []
      {| clockReads := S (clockReads s); postsSent := postsSent s;
         listeners := listeners s;
         openClients := openClients s |}
      (Fulfilled (date ++ " " ++ time)).
Proof.
  intros Hiso Hd Ht Hfree. unfold getCurrentDateTime. rewrite Hiso.
  do 2 f_equal.
  replace (date ++ "T" ++ time ++ frac ++ String z "")
    with ((date ++ String "T" (time ++ frac)) ++ String z "")
    by (rewrite !app_assoc_text; cbn [append]; now rewrite !app_assoc_text).
  rewrite slice_last, (replace_first "T" " " date (time ++ frac) Hfree).
  unfold substr_0.
  replace (date ++ String " " (time ++ frac)) with ((date ++ " " ++ time) ++ frac)
    by (rewrite !app_assoc_text; cbn [append]; now rewrite ?app_assoc_text).
  replace 19 with (String.length (date ++ " " ++ time))
    by (rewrite !length_app; cbn [String.length]; lia).
  apply substring_front.
Qed.

End ClockText.

Lemma getCurrentDateTime_local_text_witness :
  isoTime Sample.pairWorld 0 = "2023-05-01" ++ "T" ++ "10:11:12" ++ ".345" ++ "Z"
  /\ getCurrentDateTime Sample.pairWorld Sample.fresh
     = Run [] {| clockReads := 1; postsSent := 0; listeners := [];
        openClients := [] |}
         (Fulfilled "2023-05-01 10:11:12").
Proof.
  split; [reflexivity |].
  exact (getCurrentDateTime_local_text Sample.pairWorld Sample.fresh
           "2023-05-01" "10:11:12" ".345" "Z" eq_refl eq_refl eq_refl eq_refl).
Defined.

Section SinksMore.

Lemma publishItem_fields (item : obj) (w : world) (s : state) :
  exists e,
    publishItem item w s
    = Run [e]
        {| clockReads := S (clockReads s); postsSent := postsSent s;
           listeners := listeners s;
           openClients := openClients s |}
        (Fulfilled tt)
    /\ publishedFor w item (clockReads s) e.
Proof.
  eexists. split; [reflexivity |]. eexists.
  repeat (split; [reflexivity |]). reflexivity.
Qed.

Lemma state_eta (s : state) :
  {| clockReads := clockReads s + 0; postsSent := postsSent s + 0;
     listeners := listeners s;
     openClients := openClients s |} = s.
Proof. destruct s. cbn. now rewrite !Nat.add_0_r. Qed.

Lemma publishes_in_order (items : list obj) (w : world) (s : state) :
  exists pubs,
    forEach publishItem items w s
    = Run pubs
        {| clockReads := clockReads s + List.length items;
           postsSent := postsSent s; listeners := listeners s;
              openClients := openClients s |}
        (Fulfilled tt)
    /\ List.length pubs = List.length items
    /\ forall i item,
        nth_error items i = Some item ->
        exists e, nth_error pubs i = Some e
                  /\ publishedFor w item (clockReads s + i) e.
Proof.
  revert s. induction items as [|x l IH]; intros s.
  - exists []. split; [| split; [reflexivity |]].
    + cbn. destruct s. cbn. now rewrite Nat.add_0_r.
    + intros [|i] item H; discriminate.
  - destruct (publishItem_fields x w s) as (e0 & Hx & He0).
    destruct (IH {| clockReads := S (clockReads s); postsSent := postsSent s;
                    listeners := listeners s;
                    openClients := openClients s |}) as (pubs & Hl & Hlen & Hnth).
    exists (e0 :: pubs). split; [| split].
    + cbn [forEach]. unfold bind. rewrite Hx, Hl. cbn.
      do 2 f_equal. lia.
    + cbn. now rewrite Hlen.
    + intros [|i] item H; cbn in H.
      * injection H as <-. exists e0. rewrite Nat.add_0_r. auto.
      * destruct (Hnth i item H) as (e & Hn & He). exists e.
        split; [exact Hn |]. cbn [clockReads] in He.
        now replace (clockReads s + S i) with (S (clockReads s) + i) by lia.
Qed.

Lemma appendItem_fields (item : obj) (w : world) (s : state) :
  exists body,
    appendedFor w item (clockReads s) body
    /\ appendItem item w s
       = match addTemp w (postsSent s) with
         | Fulfilled _ =>
             Run [AxiosPost addTempUrl body; AxiosPostFulfilled]
               {| clockReads := S (clockReads s); postsSent := S (postsSent s);
                  listeners := listeners s;
                  openClients := openClients s |}
               (Fulfilled tt)
         | Rejected e =>
             Run [AxiosPost addTempUrl body]
               {| clockReads := S (clockReads s); postsSent := postsSent s;
                  listeners := listeners s;
                  openClients := openClients s |}
               (Rejected e)
         | Unsettled =>
             Run [AxiosPost addTempUrl body]
               {| clockReads := S (clockReads s); postsSent := postsSent s;
                  listeners := listeners s;
                  openClients := openClients s |}
               Unsettled
         end.
Proof.
  destruct (appendItem_run item w s) as (body & Hb & Hrun).
  exists body. split; [| exact Hrun]. rewrite Hb.
  repeat (split; [reflexivity |]). reflexivity.
Qed.

Lemma appends_in_order (items : list obj) (w : world) (s : state) :
  (forall i, i < List.length items ->
             exists r, addTemp w (postsSent s + i) = Fulfilled r) ->
  exists bodies,
    forEach appendItem items w s
    = Run (answered bodies)
        {| clockReads := clockReads s + List.length items;
           postsSent := postsSent s + List.length items;
           listeners := listeners s;
           openClients := openClients s |}
        (Fulfilled tt)
    /\ List.length bodies = List.length items
    /\ forall i item,
        nth_error items i = Some item ->
        exists body, nth_error bodies i = Some body
                     /\ appendedFor w item (clockReads s + i) body.
Proof.
  revert s. induction items as [|x l IH]; intros s Hok.
  - exists []. split; [| split; [reflexivity |]].
    + cbn. now rewrite state_eta.
    + intros [|i] item H; discriminate.
  - destruct (appendItem_fields x w s) as (b0 & Hb0 & Hx).
    destruct (Hok 0) as (r0 & Hr0); [cbn; lia |].
    rewrite Nat.add_0_r in Hr0. rewrite Hr0 in Hx.
    destruct (IH {| clockReads := S (clockReads s); postsSent := S (postsSent s);
                    listeners := listeners s;
                    openClients := openClients s |}) as (bodies & Hl & Hlen & Hnth).
    { intros i Hi. cbn [postsSent].
      destruct (Hok (S i)) as (r & Hr); [cbn; lia |]. exists r.
      now replace (S (postsSent s) + i) with (postsSent s + S i) by lia. }
    exists (b0 :: bodies). split; [| split].
    + cbn [forEach]. unfold bind. rewrite Hx, Hl. cbn.
      f_equal. f_equal; lia.
    + cbn. now rewrite Hlen.
    + intros [|i] item H; cbn in H.
      * injection H as <-. exists b0. rewrite Nat.add_0_r. auto.
      * destruct (Hnth i item H) as (b & Hn & Hb). exists b.
        split; [exact Hn |]. cbn [clockReads] in Hb.
        now replace (clockReads s + S i) with (S (clockReads s) + i) by lia.
Qed.

Lemma appends_stop (items : list obj) (w : world) (s : state) (j : nat) (e : exn) :
  j < List.length items ->
  (forall i, i < j -> exists r, addTemp w (postsSent s + i) = Fulfilled r) ->
  addTemp w (postsSent s + j) = Rejected e ->
  exists bodies body item,
    forEach appendItem items w s
    = Run (answered bodies ++ [AxiosPost addTempUrl body])
        {| clockReads := clockReads s + S j; postsSent := postsSent s + j;
           listeners := listeners s;
           openClients := openClients s |}
        (Rejected e)
    /\ List.length bodies = j
    /\ nth_error items j = Some item
    /\ appendedFor w item (clockReads s + j) body.
Proof.
  revert s j. induction items as [|x l IH]; intros s j Hj Hok Hbad;
    [cbn in Hj; lia |].
  destruct (appendItem_fields x w s) as (b0 & Hb0 & Hx).
  destruct j as [|j].
  - rewrite Nat.add_0_r in Hbad. rewrite Hbad in Hx.
    exists [], b0, x. split; [| split; [reflexivity | split; [reflexivity |]]].
    + cbn [forEach]. unfold bind. rewrite Hx. cbn.
      f_equal. f_equal; lia.
    + now rewrite Nat.add_0_r.
  - destruct (Hok 0) as (r0 & Hr0); [lia |].
    rewrite Nat.add_0_r in Hr0. rewrite Hr0 in Hx.
    destruct (IH {| clockReads := S (clockReads s); postsSent := S (postsSent s);
                    listeners := listeners s;
                    openClients := openClients s |} j)
      as (bodies & b & item & Hl & Hlen & Hnth & Hb).
    { cbn in Hj. lia. }
    { intros i Hi. cbn [postsSent].
      destruct (Hok (S i)) as (r & Hr); [lia |]. exists r.
      now replace (S (postsSent s) + i) with (postsSent s + S i) by lia. }
    { cbn [postsSent].
      now replace (S (postsSent s) + j) with (postsSent s + S j) by lia. }
    exists (b0 :: bodies), b, item.
    split; [| split; [cbn; now rewrite Hlen | split; [exact Hnth |]]].
    + cbn [forEach]. unfold bind. rewrite Hx, Hl. cbn.
      f_equal. f_equal; lia.
    + cbn [clockReads] in Hb.
      now replace (clockReads s + S j) with (S (clockReads s) + j) by lia.
Qed.

Lemma clientConnects_run (items : list obj) (others : list (list obj))
    (w : world) (s : state) :
  openClients s = items :: others ->
  exists pubs,
    clientConnects w s
    = Run (pubs ++ [MqttEnd; MqttClose])
        {| clockReads := clockReads s + List.length items;
           postsSent := postsSent s; listeners := listeners s;
           openClients := others |}
        (Fulfilled tt)
    /\ List.length pubs = List.length items
    /\ forall i item,
        nth_error items i = Some item ->
        exists e, nth_error pubs i = Some e
                  /\ publishedFor w item (clockReads s + i) e.
Proof.
  intros Ho.
  destruct (publishes_in_order items w
              {| clockReads := clockReads s; postsSent := postsSent s;
                 listeners := listeners s; openClients := others |})
    as (pubs & Hp & Hlen & Hnth).
  exists pubs. split; [| split; [exact Hlen | exact Hnth]].
  unfold clientConnects. rewrite Ho. unfold bind at 1, update.
  cbn [trace after outcome]. rewrite prefix_nil. unfold onConnect.
  rewrite bind_assoc. unfold bind at 1. rewrite Hp. reflexivity.
Qed.

(** X8. When the broker accepts, [sendToMqtt] opens one connection,
    publishes exactly one message per record in the order of the batch and
    then ends and closes; the message of a record carries its fields (the
    location under [storageLocation]), the time text of its own clock
    reading and the temperature or zero, and no uptime.  The call reads the
    clock once per record and is fulfilled. *)
Theorem sendToMqtt_in_order (items : list obj) (w : world) (s : state) :
  mqttBroker w = Accepts ->
  exists pubs,
    sendToMqtt items w s
    = Run (connectCall w :: pubs ++ [MqttEnd; MqttClose])
        {| clockReads := clockReads s + List.length items;
           postsSent := postsSent s; listeners := listeners s;
              openClients := openClients s |}
        (Fulfilled tt)
    /\ List.length pubs = List.length items
    /\ forall i item,
        nth_error items i = Some item ->
        exists e, nth_error pubs i = Some e
                  /\ publishedFor w item (clockReads s + i) e.
Proof.
  intros H. destruct (publishes_in_order items w s) as (pubs & Hp & Hlen & Hnth).
  exists pubs. split; [| auto].
  exact (sendToMqtt_accepted_run _ _ _ _ _ H Hp).
Qed.

(** X9. When every POST is answered, [sendToMongoDB] issues exactly one
    POST per record in the order of the batch, each after the answer to
    the one before; the body of a record carries its fields (the thresholds
    under [tempConditionLow] and [tempConditionHigh]), one event with the
    time text of its own clock reading and the temperature or zero, and no
    uptime. *)
Theorem sendToMongoDB_in_order (items : list obj) (l : list value)
    (w : world) (s : state) :
  (forall i, i < List.length items ->
             exists r, addTemp w (postsSent s + i) = Fulfilled r) ->
  exists bodies,
    sendToMongoDB items l w s
    = Run (answered bodies)
        {| clockReads := clockReads s + List.length items;
           postsSent := postsSent s + List.length items;
           listeners := listeners s;
           openClients := openClients s |}
        (Fulfilled tt)
    /\ List.length bodies = List.length items
    /\ forall i item,
        nth_error items i = Some item ->
        exists body, nth_error bodies i = Some body
                     /\ appendedFor w item (clockReads s + i) body.
Proof. intros H. unfold sendToMongoDB. now apply appends_in_order. Qed.

(** X10. [sendToMongoDB] stops at the first rejected POST: when the POSTs
    of the first [j] records are answered and the next one is rejected, the
    records after it are never sent (exactly [j + 1] POSTs were issued) and
    the call is rejected with that error. *)
Theorem sendToMongoDB_stops_at_rejection (items : list obj) (l : list value)
    (w : world) (s : state) (j : nat) (e : exn) :
  j < List.length items ->
  (forall i, i < j -> exists r, addTemp w (postsSent s + i) = Fulfilled r) ->
  addTemp w (postsSent s + j) = Rejected e ->
  exists bodies body item,
    sendToMongoDB items l w s
    = Run (answered bodies ++ [AxiosPost addTempUrl body])
        {| clockReads := clockReads s + S j; postsSent := postsSent s + j;
           listeners := listeners s;
           openClients := openClients s |}
        (Rejected e)
    /\ List.length bodies = j
    /\ List.length (filter isPost (answered bodies ++ [AxiosPost addTempUrl body]))
       = S j
    /\ nth_error items j = Some item
    /\ appendedFor w item (clockReads s + j) body.
Proof.
  intros Hj Hok Hbad. unfold sendToMongoDB.
  destruct (appends_stop items w s j e Hj Hok Hbad)
    as (bodies & body & item & Hrun & Hlen & Hnth & Hb).
  assert (Hposts : forall bs, List.length (filter isPost (answered bs))
                              = List.length bs).
  { induction bs as [|b bs IH]; [reflexivity |].
    change (answered (b :: bs))
      with (AxiosPost addTempUrl b :: AxiosPostFulfilled :: answered bs).
    cbn [filter isPost List.length]. now rewrite IH. }
  exists bodies, body, item.
  split; [exact Hrun |]. split; [exact Hlen |].
  split; [| split; [exact Hnth | exact Hb]].
  rewrite filter_app, List.length_app. cbn [filter isPost List.length].
  rewrite Hposts, Hlen. lia.
Qed.

End SinksMore.

Section PassesMore.

Variable StringToNumber : string -> num.
Variable toUpperCase : string -> string.

Lemma fanOut_after_session (items : list obj) (l : list value) (w : world)
    (s : state) :
  mqttBroker w = Accepts ->
  exists pubs,
    List.length pubs = List.length items
    /\ (forall i item,
          nth_error items i = Some item ->
          exists e, nth_error pubs i = Some e
                    /\ publishedFor w item (clockReads s + i) e)
    /\ fanOut items l w s
       = prefix (batchLine items :: connectCall w :: pubs ++ [MqttEnd; MqttClose])
           (bind (forEach appendItem items)
              (fun _ => ioOnConnection (VArr (map VObj items))) w
              {| clockReads := clockReads s + List.length items;
                 postsSent := postsSent s; listeners := listeners s;
                    openClients := openClients s |}).
Proof.
  intros H. destruct (publishes_in_order items w s) as (pubs & Hp & Hlen & Hnth).
  exists pubs. split; [exact Hlen |]. split; [exact Hnth |].
  assert (Hm : sendToMqtt items w s
               = Run (connectCall w :: pubs ++ [MqttEnd; MqttClose])
                   {| clockReads := clockReads s + List.length items;
                      postsSent := postsSent s; listeners := listeners s;
                         openClients := openClients s |}
                   (Fulfilled tt)).
  { exact (sendToMqtt_accepted_run _ _ _ _ _ H Hp). }
  unfold fanOut. rewrite bind_emit. unfold bind at 1. rewrite Hm.
  rewrite prefix_prefix. reflexivity.
Qed.

(** X11. A pass in which everything succeeds (well-formed response, every
    entry extracts, the broker accepts, every POST is answered) does, in
    this order: the GET, the log of the batch, one MQTT session with one
    publish per record, one answered POST per record, and one listener
    registration.  It reads the clock twice per record, sends one POST per
    record, leaves exactly one more listener holding the batch, and is
    fulfilled. *)
Theorem successful_pass (w : world) (s : state) (response : value)
    (beacons : list value) (items : list obj) :
  getPosition w = Fulfilled response ->
  beaconsAt (field response "data") = Some beacons ->
  extractAll StringToNumber toUpperCase beacons = Ok items ->
  mqttBroker w = Accepts ->
  (forall i, i < List.length items ->
             exists r, addTemp w (postsSent s + i) = Fulfilled r) ->
  exists pubs bodies,
    fetchDataAndSend StringToNumber toUpperCase w s
    = Run (AxiosGet getPositionUrl :: batchLine items :: connectCall w
             :: pubs ++ [MqttEnd; MqttClose] ++ answered bodies
             ++ [IoOn "connection"])
        {| clockReads := clockReads s + 2 * List.length items;
           postsSent := postsSent s + List.length items;
           listeners := listeners s ++ [EmitBeaconData (VArr (map VObj items))];
           openClients := openClients s |}
        (Fulfilled tt)
    /\ List.length pubs = List.length items
    /\ List.length bodies = List.length items
    /\ forall i item,
        nth_error items i = Some item ->
        (exists e, nth_error pubs i = Some e
                   /\ publishedFor w item (clockReads s + i) e)
        /\ (exists body,
              nth_error bodies i = Some body
              /\ appendedFor w item (clockReads s + List.length items + i) body).
Proof.
  intros Hg Hb He Hm Hok.
  destruct (fanOut_after_session items beacons w s Hm)
    as (pubs & Hlen & Hpub & Hfan).
  destruct (appends_in_order items w
              {| clockReads := clockReads s + List.length items;
                 postsSent := postsSent s; listeners := listeners s;
                    openClients := openClients s |} Hok)
    as (bodies & Happ & Hblen & Hbody).
  cbn [clockReads postsSent listeners] in Happ, Hbody.
  exists pubs, bodies. split; [| split; [exact Hlen | split; [exact Hblen |]]].
  - rewrite (fetch_wellformed _ _ _ s _ _ Hg Hb), He, Hfan.
    unfold bind. rewrite Happ. cbn [clockReads postsSent listeners].
    unfold ioOnConnection. rewrite bind_emit. unfold update.
    cbn [prefix guarded clockReads postsSent listeners app].
    f_equal.
    + do 3 f_equal. flatten_apps. reflexivity.
    + f_equal. lia.
  - intros i item Hi. split; [exact (Hpub i item Hi) | exact (Hbody i item Hi)].
Qed.

(** X12. A rejected POST ends the pass: the records after it are not sent,
    no listener is registered, the error is written to the error log and
    the invocation is fulfilled all the same.  The MQTT messages of the
    whole batch were published before. *)
Theorem rejected_append_ends_pass (w : world) (s : state) (response : value)
    (beacons : list value) (items : list obj) (j : nat) (e : exn) :
  getPosition w = Fulfilled response ->
  beaconsAt (field response "data") = Some beacons ->
  extractAll StringToNumber toUpperCase beacons = Ok items ->
  mqttBroker w = Accepts ->
  j < List.length items ->
  (forall i, i < j -> exists r, addTemp w (postsSent s + i) = Fulfilled r) ->
  addTemp w (postsSent s + j) = Rejected e ->
  exists pubs bodies body,
    fetchDataAndSend StringToNumber toUpperCase w s
    = Run (AxiosGet getPositionUrl :: batchLine items :: connectCall w
             :: pubs ++ [MqttEnd; MqttClose] ++ answered bodies
             ++ [AxiosPost addTempUrl body; caughtLine e])
        {| clockReads := clockReads s + List.length items + S j;
           postsSent := postsSent s + j; listeners := listeners s;
              openClients := openClients s |}
        (Fulfilled tt)
    /\ List.length pubs = List.length items
    /\ List.length bodies = j.
Proof.
  intros Hg Hb He Hm Hj Hok Hbad.
  destruct (fanOut_after_session items beacons w s Hm)
    as (pubs & Hlen & _ & Hfan).
  destruct (appends_stop items w
              {| clockReads := clockReads s + List.length items;
                 postsSent := postsSent s; listeners := listeners s;
                    openClients := openClients s |} j e Hj Hok Hbad)
    as (bodies & body & item & Happ & Hblen & _).
  cbn [clockReads postsSent listeners] in Happ.
  exists pubs, bodies, body. split; [| split; [exact Hlen | exact Hblen]].
  rewrite (fetch_wellformed _ _ _ s _ _ Hg Hb), He, Hfan.
  unfold bind. rewrite Happ. cbn [clockReads postsSent listeners].
  cbn [prefix guarded]. f_equal. do 3 f_equal. flatten_apps. reflexivity.
Qed.

(** X13. When the broker refuses the connection, the pass ends after the
    connect call: no message is published, no POST is sent, no listener is
    registered, the broker's error is written to the error log and the
    invocation is fulfilled.  The client is not ended: it stays open with
    its ['connect'] handler, and when it connects later (no other client
    being open) it publishes the whole batch of that pass, one message per
    record in the order of the batch, and ends. *)
Theorem refused_broker_ends_pass (w : world) (s : state) (response : value)
    (beacons : list value) (items : list obj) (e : exn) :
  getPosition w = Fulfilled response ->
  beaconsAt (field response "data") = Some beacons ->
  extractAll StringToNumber toUpperCase beacons = Ok items ->
  mqttBroker w = Refuses e ->
  fetchDataAndSend StringToNumber toUpperCase w s
  = Run [ AxiosGet getPositionUrl; batchLine items; connectCall w; caughtLine e ]
      (withOpenClient s items) (Fulfilled tt)
  /\ (openClients s = [] ->
      forall later : world,
      exists pubs,
        clientConnects later
          (after (fetchDataAndSend StringToNumber toUpperCase w s))
        = Run (pubs ++ [MqttEnd; MqttClose])
            {| clockReads := clockReads s + List.length items;
               postsSent := postsSent s; listeners := listeners s;
               openClients := [] |}
            (Fulfilled tt)
        /\ List.length pubs = List.length items
        /\ forall i item,
            nth_error items i = Some item ->
            exists ev, nth_error pubs i = Some ev
                       /\ publishedFor later item (clockReads s + i) ev).
Proof.
  intros Hg Hb He Hm.
  rewrite (fetch_wellformed _ _ _ s _ _ Hg Hb), He, (fanOut_refused _ _ _ _ _ Hm).
  split; [reflexivity |]. intros Ho later. cbn [guarded after].
  apply (clientConnects_run items [] later (withOpenClient s items)).
  cbn [withOpenClient openClients]. now rewrite Ho.
Qed.


Lemma guarded_outcome (r : run unit) :
  outcome (guarded r) = Fulfilled tt
  \/ (outcome (guarded r) = Unsettled /\ outcome r = Unsettled).
Proof. destruct r as [t s1 [[] | e |]]; cbn; auto. Qed.

Lemma appends_settle (items : list obj) (w : world) (s : state) :
  (forall k, addTemp w k <> Unsettled) ->
  outcome (forEach appendItem items w s) <> Unsettled.
Proof.
  intros Hs. revert s. induction items as [|x l IH]; intros s; [discriminate |].
  destruct (appendItem_run x w s) as (body & _ & Hx).
  cbn [forEach]. unfold bind. rewrite Hx.
  destruct (addTemp w (postsSent s)) as [r | e |] eqn:Ha.
  - rewrite outcome_prefix. apply IH.
  - discriminate.
  - now apply Hs in Ha.
Qed.

(** X15. No invocation is ever rejected: whatever the source, the broker
    and the store do, [fetchDataAndSend] is fulfilled or stays pending.
    It is fulfilled whenever the GET settles, the broker is not silent and
    every POST settles. *)
Theorem invocation_never_rejects (w : world) (s : state) :
  (forall e, outcome (fetchDataAndSend StringToNumber toUpperCase w s) <> Rejected e)
  /\ (getPosition w <> Unsettled ->
      mqttBroker w <> Silent ->
      (forall k, addTemp w k <> Unsettled) ->
      outcome (fetchDataAndSend StringToNumber toUpperCase w s) = Fulfilled tt).
Proof.
  destruct (getPosition w) as [response | e0 |] eqn:Hg.
  - destruct (beaconsAt (field response "data")) as [l |] eqn:Hb.
    + rewrite (fetch_wellformed _ _ _ s _ _ Hg Hb).
      destruct (extractAll StringToNumber toUpperCase l) as [items | e0];
        [| split; [discriminate | reflexivity]].
      split.
      * intros e. destruct (guarded_outcome (fanOut items l w s)) as [-> | [-> _]];
          discriminate.
      * intros _ Hm Hs.
        destruct (guarded_outcome (fanOut items l w s)) as [-> | [_ Hu]];
          [reflexivity | exfalso].
        assert (Hafter : forall mq s1,
                   fanOut items l w s
                   = prefix (batchLine items :: mq)
                       (bind (forEach appendItem items)
                          (fun _ => ioOnConnection (VArr (map VObj items))) w s1) ->
                   False).
        { intros mq s1 Hfan. rewrite Hfan, outcome_prefix, bind_run in Hu.
          pose proof (appends_settle items w s1 Hs) as Hne.
          destruct (outcome (forEach appendItem items w s1)) as [[] | e0 |].
          - unfold ioOnConnection in Hu.
            rewrite outcome_prefix, bind_emit, outcome_prefix in Hu.
            discriminate.
          - discriminate.
          - congruence. }
        destruct (mqttBroker w) as [| e0 | |] eqn:Hbr; [| | congruence |].
        -- destruct (fanOut_after_session items l w s Hbr) as (pubs & _ & _ & Hfan).
           exact (Hafter _ _ Hfan).
        -- rewrite (fanOut_refused _ _ _ _ _ Hbr) in Hu. discriminate.
        -- assert (Hq : sendToMqtt items w s
                        = Run [connectCall w; MqttClose] (withOpenClient s items)
                            (Fulfilled tt)).
           { rewrite sendToMqtt_run, Hbr. reflexivity. }
           destruct (fanOut_resolved items l w s _ _ Hq eq_refl) as (Hfan & _).
           exact (Hafter _ _ Hfan).
    + destruct (fetch_malformed StringToNumber toUpperCase w s response Hg Hb)
        as (line & -> & _).
      split; [discriminate | reflexivity].
  - rewrite (fetch_rejected _ _ _ _ _ Hg). split; [discriminate | reflexivity].
  - rewrite (fetch_unsettled _ _ _ _ Hg). split; [discriminate | congruence].
Qed.

(** X16. When the GET itself fails, the invocation writes that error to the
    error log and does nothing else: no record is extracted, no sink is
    touched, the state is unchanged and the invocation is fulfilled. *)
Theorem failed_request_touches_nothing (w : world) (s : state) (e : exn) :
  getPosition w = Rejected e ->
  fetchDataAndSend StringToNumber toUpperCase w s
  = Run [ AxiosGet getPositionUrl; caughtLine e ] s (Fulfilled tt)
  /\ Forall (fun ev => isSink ev = false)
       (trace (fetchDataAndSend StringToNumber toUpperCase w s)).
Proof.
  intros Hg. rewrite (fetch_rejected _ _ _ _ _ Hg). split; [reflexivity |].
  cbn [trace]. repeat (constructor; [reflexivity |]). constructor.
Qed.

(** X17. Listeners are never removed.  After any number of invocations on
    the same [io] object the listeners held before are still there, in
    order, followed by at most one new listener per invocation; a
    subscriber that connects then triggers exactly one emit per listener
    held. *)
Theorem listeners_never_removed (ws : list world) (s : state) :
  exists added,
    listeners (invocations StringToNumber toUpperCase ws s) = (listeners s ++ added)%list
    /\ List.length added <= List.length ws
    /\ List.length (connection (invocations StringToNumber toUpperCase ws s))
       = List.length (listeners s) + List.length added.
Proof.
  assert (Hone : forall w s0,
             exists added,
               listeners (after (fetchDataAndSend StringToNumber toUpperCase w s0))
               = (listeners s0 ++ added)%list
               /\ List.length added <= 1).
  { intros w s0.
    destruct (fetch_trace StringToNumber toUpperCase w s0)
      as [(lines & _ & _ & ->)
         | [(items & lines & _ & _ & _ & _ & ->)
           | (items & mq & bodies & tail & sub & lines & _ & _ & _ & _
              & [(_ & _ & _ & ->) | (_ & _ & ->)])]].
    - exists []. rewrite app_nil_r. cbn. auto.
    - exists []. rewrite app_nil_r. cbn. auto.
    - eexists. split; [reflexivity | cbn; lia].
    - exists []. rewrite app_nil_r. cbn. auto. }
  assert (Hmany : exists added,
             listeners (invocations StringToNumber toUpperCase ws s) = (listeners s ++ added)%list
             /\ List.length added <= List.length ws).
  { revert s. induction ws as [|w ws IH]; intros s.
    - exists []. rewrite app_nil_r. cbn. auto.
    - cbn [invocations].
      destruct (IH (after (fetchDataAndSend StringToNumber toUpperCase w s)))
        as (more & Hm & Hlen).
      destruct (Hone w s) as (added & Ha & Hal).
      exists (added ++ more)%list. rewrite Hm, Ha, <- app_assoc.
      split; [reflexivity |]. rewrite List.length_app. cbn. lia. }
  destruct Hmany as (added & Ha & Hlen). exists added.
  split; [exact Ha |]. split; [exact Hlen |].
  unfold connection. rewrite length_map, Ha, List.length_app. reflexivity.
Qed.

End PassesMore.

(** ** The further properties on the sample data *)

Lemma telemetry_record_witness :
  hasProperty "dynamb" (field Cases.noUptime "ff11") = Ok true
  /\ exists record,
      extractBeaconData stringToNumber upperCase Cases.noUptime = Ok record
      /\ assoc "temperature" record = Some (VNum (Int 19))
      /\ assoc "uptime" record
         = Some (VStr "NaN Tage, NaN Stunden, NaN Minuten, NaN Sekunden").
Proof.
  split; [reflexivity |].
  destruct (telemetry_record stringToNumber upperCase Cases.noUptime "ff11" []
              eq_refl eq_refl eq_refl eq_refl eq_refl)
    as (record & He & _ & _ & Ht & _ & _ & Hu).
  exists record. split; [exact He |]. split; [exact Ht | exact (Hu eq_refl)].
Defined.

Lemma null_telemetry_throws_witness :
  nullish (field (field Cases.nullTelemetry "ee10") "dynamb") = true
  /\ extractBeaconData stringToNumber upperCase Cases.nullTelemetry = Throw TypeError.
Proof.
  split; [reflexivity |].
  exact (null_telemetry_throws stringToNumber upperCase Cases.nullTelemetry "ee10" []
           eq_refl eq_refl eq_refl).
Defined.

Lemma record_invariant_witness :
  extractBeaconData stringToNumber upperCase withTelemetry = Ok recordWithTelemetry
  /\ map fst recordWithTelemetry = (baseNames ++ telemetryNames)%list
  /\ exists k ks,
      Object_keys withTelemetry = Ok (k :: ks)
      /\ assoc "beacon" recordWithTelemetry = Some (VStr (upperCase k)).
Proof.
  split; [reflexivity |]. split; [reflexivity |].
  exact (proj1 (proj2 (record_invariant stringToNumber upperCase withTelemetry
                         recordWithTelemetry eq_refl))).
Defined.

Lemma primitive_entry_throws_witness :
  isPrimitive (VStr "ac233fa1") = true
  /\ extractBeaconData stringToNumber upperCase (VStr "ac233fa1") = Throw TypeError.
Proof.
  split; [reflexivity |].
  exact (primitive_entry_throws stringToNumber upperCase (VStr "ac233fa1") eq_refl).
Defined.

Lemma sendToMqtt_in_order_witness :
  mqttBroker pairWorld = Accepts
  /\ exists pubs,
      sendToMqtt Cases.pairRecords pairWorld fresh
      = Run (connectCall pairWorld :: pubs ++ [MqttEnd; MqttClose])
          {| clockReads := 2; postsSent := 0; listeners := [];
             openClients := [] |} (Fulfilled tt)
      /\ List.length pubs = 2.
Proof.
  split; [reflexivity |].
  destruct (sendToMqtt_in_order Cases.pairRecords pairWorld fresh eq_refl)
    as (pubs & Hrun & Hlen & _).
  exists pubs. split; [exact Hrun | exact Hlen].
Defined.

Lemma sendToMongoDB_in_order_witness :
  (forall i, i < 2 -> exists r, addTemp pairWorld (0 + i) = Fulfilled r)
  /\ exists bodies,
      sendToMongoDB Cases.pairRecords Cases.pair pairWorld fresh
      = Run (answered bodies)
          {| clockReads := 2; postsSent := 2; listeners := [];
             openClients := [] |} (Fulfilled tt)
      /\ List.length bodies = 2.
Proof.
  assert (H : forall i, i < 2 -> exists r, addTemp pairWorld (0 + i) = Fulfilled r).
  { intros i _. eexists. reflexivity. }
  split; [exact H |].
  destruct (sendToMongoDB_in_order Cases.pairRecords Cases.pair pairWorld fresh H)
    as (bodies & Hrun & Hlen & _).
  exists bodies. split; [exact Hrun | exact Hlen].
Defined.

Lemma second_post_only_first_answered (i : nat) :
  i < 1 -> exists r, addTemp Cases.secondPostFails (0 + i) = Fulfilled r.
Proof.
  intros Hi. destruct i as [|i]; [eexists; reflexivity | lia].
Defined.

Lemma sendToMongoDB_stops_at_rejection_witness :
  addTemp Cases.secondPostFails 1 = Rejected (Failure "ECONNRESET")
  /\ exists bodies body,
      sendToMongoDB Cases.pairRecords Cases.pair Cases.secondPostFails fresh
      = Run (answered bodies ++ [AxiosPost addTempUrl body])
          {| clockReads := 2; postsSent := 1; listeners := [];
             openClients := [] |}
          (Rejected (Failure "ECONNRESET"))
      /\ List.length bodies = 1.
Proof.
  split; [reflexivity |].
  destruct (sendToMongoDB_stops_at_rejection Cases.pairRecords Cases.pair
              Cases.secondPostFails fresh 1 (Failure "ECONNRESET")
              (le_n 2) second_post_only_first_answered eq_refl)
    as (bodies & body & item & Hrun & Hlen & _).
  exists bodies, body. split; [exact Hrun | exact Hlen].
Defined.

Lemma successful_pass_witness :
  extractAll stringToNumber upperCase Cases.pair = Ok Cases.pairRecords
  /\ exists pubs bodies,
      fetchDataAndSend stringToNumber upperCase pairWorld fresh
      = Run (AxiosGet getPositionUrl :: batchLine Cases.pairRecords
               :: connectCall pairWorld :: pubs ++ [MqttEnd; MqttClose]
               ++ answered bodies ++ [IoOn "connection"])
          {| clockReads := 4; postsSent := 2;
             listeners := [EmitBeaconData (VArr (map VObj Cases.pairRecords))];
             openClients := [] |}
          (Fulfilled tt)
      /\ List.length pubs = 2
      /\ List.length bodies = 2.
Proof.
  split; [reflexivity |].
  destruct (successful_pass stringToNumber upperCase pairWorld fresh
              (responseOf (bodyOf Cases.pair)) Cases.pair Cases.pairRecords
              eq_refl eq_refl eq_refl eq_refl
              (fun i _ => ex_intro _ (VObj [ ("status", VNum (Int 200)) ]) eq_refl))
    as (pubs & bodies & Hrun & Hp & Hb & _).
  exists pubs, bodies. split; [exact Hrun |]. split; [exact Hp | exact Hb].
Defined.

Lemma rejected_append_ends_pass_witness :
  addTemp Cases.secondPostFails 1 = Rejected (Failure "ECONNRESET")
  /\ exists pubs bodies body,
      fetchDataAndSend stringToNumber upperCase Cases.secondPostFails fresh
      = Run (AxiosGet getPositionUrl :: batchLine Cases.pairRecords
               :: connectCall Cases.secondPostFails :: pubs ++ [MqttEnd; MqttClose]
               ++ answered bodies
               ++ [AxiosPost addTempUrl body; caughtLine (Failure "ECONNRESET")])
          {| clockReads := 4; postsSent := 1; listeners := [];
             openClients := [] |}
          (Fulfilled tt)
      /\ List.length pubs = 2
      /\ List.length bodies = 1.
Proof.
  split; [reflexivity |].
  exact (rejected_append_ends_pass stringToNumber upperCase Cases.secondPostFails fresh
           (responseOf (bodyOf Cases.pair)) Cases.pair Cases.pairRecords 1
           (Failure "ECONNRESET") eq_refl eq_refl eq_refl eq_refl (le_n 2)
           second_post_only_first_answered eq_refl).
Defined.

Lemma refused_broker_ends_pass_witness :
  mqttBroker Cases.refusingWorld = Refuses (Failure "ECONNREFUSED")
  /\ fetchDataAndSend stringToNumber upperCase Cases.refusingWorld fresh
     = Run [ AxiosGet getPositionUrl; batchLine Cases.pairRecords;
             connectCall Cases.refusingWorld;
             caughtLine (Failure "ECONNREFUSED") ]
         (withOpenClient fresh Cases.pairRecords) (Fulfilled tt)
  /\ exists pubs,
      trace (clientConnects pairWorld
               (after (fetchDataAndSend stringToNumber upperCase
                         Cases.refusingWorld fresh)))
      = (pubs ++ [MqttEnd; MqttClose])%list
      /\ List.length pubs = 2.
Proof.
  split; [reflexivity |].
  destruct (refused_broker_ends_pass stringToNumber upperCase Cases.refusingWorld
              fresh (responseOf (bodyOf Cases.pair)) Cases.pair Cases.pairRecords
              (Failure "ECONNREFUSED") eq_refl eq_refl eq_refl eq_refl)
    as (Hrun & Hlater).
  split; [exact Hrun |].
  destruct (Hlater eq_refl pairWorld) as (pubs & Hp & Hlen & _).
  exists pubs. split; [now rewrite Hp | exact Hlen].
Defined.


Lemma failed_request_touches_nothing_witness :
  getPosition Cases.unreachableWorld = Rejected (Failure "ECONNREFUSED")
  /\ fetchDataAndSend stringToNumber upperCase Cases.unreachableWorld fresh
     = Run [ AxiosGet getPositionUrl; caughtLine (Failure "ECONNREFUSED") ]
         fresh (Fulfilled tt).
Proof.
  split; [reflexivity |].
  exact (proj1 (failed_request_touches_nothing stringToNumber upperCase
                  Cases.unreachableWorld fresh (Failure "ECONNREFUSED") eq_refl)).
Defined.

Lemma invocation_never_rejects_witness :
  (forall k, addTemp Cases.secondPostFails k <> Unsettled)
  /\ outcome (fetchDataAndSend stringToNumber upperCase Cases.secondPostFails fresh)
     = Fulfilled tt.
Proof.
  assert (H : forall k, addTemp Cases.secondPostFails k <> Unsettled).
  { intros k. cbn. destruct (Nat.eqb k 1); discriminate. }
  split; [exact H |].
  apply (proj2 (invocation_never_rejects stringToNumber upperCase Cases.secondPostFails fresh));
    [discriminate | discriminate | exact H].
Defined.
